(** * Product catalogue actions: a shallow embedding

    Source files embedded here:
    - [src/lib/actions/productActions.ts]: the six server actions
      [createProduct], [updateProduct], [deleteProduct], [getProductById],
      [getAllProducts], [toggleFeaturedStatus];
    - [src/models/Product.ts]: the Mongoose schema [ProductSchema] and its
      index declarations.

    JavaScript values are modelled by the small part of the language the
    actions use: strings are [string], a JS [number] is [JSNumber] (exact
    rationals plus NaN and the infinities; binary rounding is abstracted
    away), [FormData] is an ordered association list.  The asynchronous
    actions are written in a state-and-exception monad over a [World]
    holding the products collection, the log of collaborator calls, a
    schedule of injected collaborator failures and, for the sorted
    queries, a schedule of the orders the store gives to documents of
    equal sort key. *)

From Stdlib Require Import List String Ascii ZArith QArith Lia Bool.
From Stdlib Require Import Permutation Sorted DecimalString DecimalNat.
Import ListNotations.

#[local] Open Scope string_scope.
#[local] Open Scope Z_scope.

(* ================================================================== *)
(** ** JavaScript strings *)

Module JsString.

Definition chars (s : string) : list ascii := list_ascii_of_string s.

(** White space and line terminators removed by [String.prototype.trim]
    and skipped by [Number] (the ASCII ones). *)
Definition is_ws (c : ascii) : bool :=
  let n := nat_of_ascii c in
  ((9 <=? n) && (n <=? 13))%nat || (n =? 32)%nat.

Fixpoint trim_start (l : list ascii) : list ascii :=
  match l with
  | c :: r => if is_ws c then trim_start r else l
  | [] => []
  end.

Definition trim_end (l : list ascii) : list ascii :=
  rev (trim_start (rev l)).

Definition trim_chars (l : list ascii) : list ascii :=
  trim_end (trim_start l).

Definition trim (s : string) : string :=
  string_of_list_ascii (trim_chars (chars s)).

(** ASCII lower-casing, the folding used by a case-insensitive match. *)
Definition lower (c : ascii) : ascii :=
  let n := nat_of_ascii c in
  if ((65 <=? n) && (n <=? 90))%nat then ascii_of_nat (n + 32) else c.

Definition lower_chars (l : list ascii) : list ascii := map lower l.

Definition ascii_eqb_ci (a b : ascii) : bool :=
  Ascii.eqb (lower a) (lower b).

Fixpoint prefixb (p l : list ascii) : bool :=
  match p, l with
  | [], _ => true
  | a :: p', b :: l' => Ascii.eqb a b && prefixb p' l'
  | _ :: _, [] => false
  end.

(** [infixb p l]: [p] occurs in [l] as a contiguous block. *)
Fixpoint infixb (p l : list ascii) : bool :=
  prefixb p l ||
  match l with
  | [] => false
  | _ :: l' => infixb p l'
  end.

End JsString.

(* ================================================================== *)
(** ** JavaScript numbers and [Number(...)] *)

Inductive JSNumber : Type :=
| JNaN
| JInf (negative : bool)
| JFin (q : Q).

Module JsNumber.
Import JsString.

Definition zero : JSNumber := JFin 0%Q.

(** [v >= 0] in JavaScript: false on NaN. *)
Definition ge0 (v : JSNumber) : bool :=
  match v with
  | JNaN => false
  | JInf negative => negb negative
  | JFin q => Qle_bool 0%Q q
  end.

Definition isNaN (v : JSNumber) : bool :=
  match v with JNaN => true | _ => false end.

(** [Number.isInteger]. *)
Definition isInteger (v : JSNumber) : bool :=
  match v with
  | JFin q => (Qnum q mod Zpos (Qden q) =? 0)%Z
  | _ => false
  end.

(** [Math.ceil]. *)
Definition ceil (v : JSNumber) : JSNumber :=
  match v with
  | JFin q => JFin (inject_Z (- ((- Qnum q) / Zpos (Qden q))))
  | _ => v
  end.

(** [a / b] on two integers held in JS numbers. *)
Definition div (a b : Z) : JSNumber :=
  if (b =? 0)%Z then
    (if (a =? 0)%Z then JNaN else JInf (a <? 0)%Z)
  else JFin (Qmake (a * Z.sgn b) (Z.to_pos (Z.abs b))).

(** *** The string grammar of [Number(s)] (StringToNumber) *)

Definition digit_of (base : Z) (c : ascii) : option Z :=
  let n := Z.of_nat (nat_of_ascii c) in
  let d :=
    if (48 <=? n) && (n <=? 57) then n - 48
    else if (97 <=? n) && (n <=? 102) then n - 87
    else if (65 <=? n) && (n <=? 70) then n - 55
    else 99 in
  if d <? base then Some d else None.

(** Longest prefix of digits in [base], its value (continuing from
    [acc]), how many digits were read, and the remaining characters. *)
Fixpoint span_digits (base : Z) (acc : Z) (cnt : Z) (l : list ascii)
  : Z * Z * list ascii :=
  match l with
  | c :: r =>
      match digit_of base c with
      | Some d => span_digits base (acc * base + d) (cnt + 1) r
      | None => (acc, cnt, l)
      end
  | [] => (acc, cnt, [])
  end.

Definition is_char (c : ascii) (s : string) : bool :=
  existsb (Ascii.eqb c) (chars s).

(** [0x..], [0o..], [0b..]: no sign, at least one digit, nothing after. *)
Definition parse_nondecimal (l : list ascii) : option Z :=
  match l with
  | z :: x :: r =>
      if Ascii.eqb z "0"%char then
        let base :=
          if is_char x "xX" then 16
          else if is_char x "oO" then 8
          else if is_char x "bB" then 2 else 0 in
        if base =? 0 then None
        else
          match span_digits base 0 0 r with
          | (v, cnt, []) => if 0 <? cnt then Some v else None
          | _ => None
          end
      else None
  | _ => None
  end.

(** Exponent part: empty, or [e]/[E], an optional sign and digits. *)
Definition parse_exponent (l : list ascii) : option Z :=
  match l with
  | [] => Some 0
  | e :: r =>
      if is_char e "eE" then
        let '(neg, r') :=
          match r with
          | s :: r' =>
              if Ascii.eqb s "-"%char then (true, r')
              else if Ascii.eqb s "+"%char then (false, r')
              else (false, r)
          | [] => (false, r)
          end in
        match span_digits 10 0 0 r' with
        | (v, cnt, []) =>
            if 0 <? cnt then Some (if neg then - v else v) else None
        | _ => None
        end
      else None
  end.

(** Unsigned decimal literal: [ddd], [ddd.], [ddd.ddd], [.ddd], each with
    an optional exponent. *)
Definition parse_decimal (l : list ascii) : option Q :=
  let '(ip, icnt, r1) := span_digits 10 0 0 l in
  let '(m, fcnt, r2) :=
    match r1 with
    | d :: r =>
        if Ascii.eqb d "."%char then span_digits 10 ip 0 r
        else (ip, 0, r1)
    | [] => (ip, 0, r1)
    end in
  if (icnt + fcnt =? 0) then None
  else
    match parse_exponent r2 with
    | Some e => Some (inject_Z m * Qpower (inject_Z 10) (e - fcnt))%Q
    | None => None
    end.

Definition strip_sign (l : list ascii) : bool * list ascii :=
  match l with
  | s :: r =>
      if Ascii.eqb s "-"%char then (true, r)
      else if Ascii.eqb s "+"%char then (false, r)
      else (false, l)
  | [] => (false, [])
  end.

Definition list_ascii_eqb (a b : list ascii) : bool :=
  String.eqb (string_of_list_ascii a) (string_of_list_ascii b).

(** [Number(s)] for a string [s]. *)
Definition of_string (s : string) : JSNumber :=
  match trim_chars (chars s) with
  | [] => zero
  | l =>
      match parse_nondecimal l with
      | Some z => JFin (inject_Z z)
      | None =>
          let '(neg, body) := strip_sign l in
          if list_ascii_eqb body (chars "Infinity") then JInf neg
          else
            match parse_decimal body with
            | Some q => JFin (if neg then (- q)%Q else q)
            | None => JNaN
            end
      end
  end.

End JsNumber.

(* ================================================================== *)
(** ** Form input *)

(** [FormDataEntryValue = string | File]. *)
Inductive FormDataEntryValue : Type :=
| EStr (s : string)
| EFile (filename : string).

(** A [FormData] is an ordered multi-map from field names to entries. *)
Definition FormData : Type := list (string * FormDataEntryValue).

Module Form.

(** [formData.getAll(k)]. *)
Definition getAll (fd : FormData) (k : string) : list FormDataEntryValue :=
  map snd (filter (fun e => String.eqb (fst e) k) fd).

(** [formData.get(k)]: the first entry, or [null] (here [None]). *)
Definition get (fd : FormData) (k : string) : option FormDataEntryValue :=
  hd_error (getAll fd k).

(** [formData.has(k)]. *)
Definition has (fd : FormData) (k : string) : bool :=
  existsb (fun e => String.eqb (fst e) k) fd.

(** [Number(v)] for [v] the result of [formData.get]: [Number(null)] is
    [0], a [File] converts through ["[object File]"] to [NaN]. *)
Definition Number (v : option FormDataEntryValue) : JSNumber :=
  match v with
  | None => JsNumber.zero
  | Some (EStr s) => JsNumber.of_string s
  | Some (EFile _) => JNaN
  end.

(** [v === s] for a string literal [s]. *)
Definition strict_eq (v : option FormDataEntryValue) (s : string) : bool :=
  match v with
  | Some (EStr t) => String.eqb t s
  | _ => false
  end.

(** [img !== ''], the predicate of both [filter] calls on images. *)
Definition not_empty (img : FormDataEntryValue) : bool :=
  match img with
  | EStr s => negb (String.eqb s "")
  | EFile _ => true
  end.

(** [formData.get('featured') === 'true' || ... === 'on']. *)
Definition featured_flag (fd : FormData) : bool :=
  strict_eq (get fd "featured") "true" || strict_eq (get fd "featured") "on".

End Form.

(** [rawData] of [createProduct] (lines 24-32). *)
Record RawProduct : Type := {
  raw_name : option FormDataEntryValue;
  raw_description : option FormDataEntryValue;
  raw_price : JSNumber;
  raw_stock : JSNumber;
  raw_category : option FormDataEntryValue;
  raw_images : list FormDataEntryValue;
  raw_featured : bool
}.

Definition createRawData (formData : FormData) : RawProduct :=
  {| raw_name := Form.get formData "name";
     raw_description := Form.get formData "description";
     raw_price := Form.Number (Form.get formData "price");
     raw_stock := Form.Number (Form.get formData "stock");
     raw_category := Form.get formData "category";
     raw_images := filter Form.not_empty (Form.getAll formData "images");
     raw_featured := Form.featured_flag formData |}.

(** [rawData : Partial<ProductInput>] of [updateProduct] (lines 75-87): a
    field is [None] when the key was never assigned. *)
Record RawUpdate : Type := {
  upd_name : option FormDataEntryValue;
  upd_description : option FormDataEntryValue;
  upd_price : option JSNumber;
  upd_stock : option JSNumber;
  upd_category : option FormDataEntryValue;
  upd_images : option (list FormDataEntryValue);
  upd_featured : option bool
}.

Definition updateRawData (formData : FormData) : RawUpdate :=
  let images := filter Form.not_empty (Form.getAll formData "images") in
  {| upd_name :=
       if Form.has formData "name" then Form.get formData "name" else None;
     upd_description :=
       if Form.has formData "description"
       then Form.get formData "description" else None;
     upd_price :=
       if Form.has formData "price"
       then Some (Form.Number (Form.get formData "price")) else None;
     upd_stock :=
       if Form.has formData "stock"
       then Some (Form.Number (Form.get formData "stock")) else None;
     upd_category :=
       if Form.has formData "category"
       then Form.get formData "category" else None;
     upd_images :=
       if (0 <? Z.of_nat (List.length images)) then Some images else None;
     upd_featured :=
       if Form.has formData "featured"
       then Some (Form.featured_flag formData) else None |}.

(* ================================================================== *)
(** ** The validation module [@/lib/validations/Product]

    The actions import [validateProduct], [validateUpdateProduct] and
    [formatValidationErrors] from a module that is not among the source
    files.  The actions are written against this interface; a model of the
    module following the specification's field table is given further
    down ([SpecValidation]). *)

(** [ProductInput]: the payload a successful [validateProduct] returns. *)
Record ProductInput : Type := {
  in_name : string;
  in_description : string;
  in_price : JSNumber;
  in_stock : JSNumber;
  in_category : string;
  in_images : list string;
  in_featured : bool
}.

(** [UpdateProductInput]: the payload of a successful
    [validateUpdateProduct]; [None] is an absent key. *)
Record UpdateProductInput : Type := {
  set_name : option string;
  set_description : option string;
  set_price : option JSNumber;
  set_stock : option JSNumber;
  set_category : option string;
  set_images : option (list string);
  set_featured : option bool
}.

Record FieldError : Type := { field : string; message : string }.

(** The [{ success, data, error }] result of the two validators. *)
Inductive SafeParse (E A : Type) : Type :=
| ParseOk (data : A)
| ParseErr (error : E).
Arguments ParseOk {E A} data.
Arguments ParseErr {E A} error.

Class ValidationModule : Type := {
  ValidationError : Type;
  validateProduct : RawProduct -> SafeParse ValidationError ProductInput;
  validateUpdateProduct :
    RawUpdate -> SafeParse ValidationError UpdateProductInput;
  formatValidationErrors : ValidationError -> list FieldError
}.

(* ================================================================== *)
(** ** The persisted document and [ProductSchema] (src/models/Product.ts) *)

(** [IProduct]; [p_id] is the store-assigned [_id]. *)
Record ProductDoc : Type := {
  p_id : string;
  p_name : string;
  p_description : string;
  p_price : JSNumber;
  p_stock : JSNumber;
  p_category : string;
  p_images : list string;
  p_featured : bool;
  p_createdAt : Z;
  p_updatedAt : Z
}.

Module ProductSchema.

Definition strlen (s : string) : Z := Z.of_nat (String.length s).

(** [enum.values] of the [category] path. *)
Definition categories : list string :=
  ["Electronics"; "Clothing"; "Food"; "Books"; "Home"; "Sports"; "Toys";
   "Other"].

(** The first validator of a path that rejects the value gives the
    path's error; each entry is (accepted, message). *)
Fixpoint first_failure (checks : list (bool * string)) : option string :=
  match checks with
  | [] => None
  | (true, _) :: r => first_failure r
  | (false, msg) :: _ => Some msg
  end.

(** Paths [name], [description], [category] carry [trim: true]. *)
Definition name_error (v : string) : option string :=
  let v := JsString.trim v in
  first_failure
    [ (negb (String.eqb v ""), "Product name is required");
      (strlen v <=? 100, "Product name cannot exceed 100 characters");
      (3 <=? strlen v, "Product name must be at least 3 characters long") ].

Definition description_error (v : string) : option string :=
  let v := JsString.trim v in
  first_failure
    [ (negb (String.eqb v ""), "Product description is required");
      (strlen v <=? 1000, "Description cannot exceed 1000 characters") ].

(** A [NaN] does not cast to the [Number] schema type. *)
Definition price_error (v : JSNumber) : option string :=
  first_failure
    [ (negb (JsNumber.isNaN v), "Cast to Number failed");
      (JsNumber.ge0 v, "Price cannot be negative");
      (JsNumber.ge0 v, "Price must be a valid positive number") ].

Definition stock_error (v : JSNumber) : option string :=
  first_failure
    [ (negb (JsNumber.isNaN v), "Cast to Number failed");
      (JsNumber.ge0 v, "Stock cannot be negative");
      (JsNumber.isInteger v, "Stock must be a whole number") ].

Definition category_error (v : string) : option string :=
  let v := JsString.trim v in
  first_failure
    [ (negb (String.eqb v ""), "Product category is required");
      (existsb (String.eqb v) categories,
       v ++ " is not a valid category") ].

Definition images_error (v : list string) : option string :=
  first_failure
    [ (Z.of_nat (List.length v) <=? 5,
       "Cannot upload more than 5 images per product") ].

Definition on_path {A} (path : string) (check : A -> option string)
    (v : option A) : list (string * string) :=
  match v with
  | Some x =>
      match check x with
      | Some msg => [(path, msg)]
      | None => []
      end
  | None => []
  end.

(** Validation of the paths an update sets ([runValidators: true]). *)
Definition update_errors (u : UpdateProductInput) : list (string * string) :=
  on_path "name" name_error (set_name u)
  ++ on_path "description" description_error (set_description u)
  ++ on_path "price" price_error (set_price u)
  ++ on_path "stock" stock_error (set_stock u)
  ++ on_path "category" category_error (set_category u)
  ++ on_path "images" images_error (set_images u).

(** Validation of a whole document, on [create] and on [save]. *)
Definition document_errors (name description : string)
    (price stock : JSNumber) (category : string) (images : list string)
  : list (string * string) :=
  update_errors
    {| set_name := Some name; set_description := Some description;
       set_price := Some price; set_stock := Some stock;
       set_category := Some category; set_images := Some images;
       set_featured := None |}.

Fixpoint join_errors (l : list (string * string)) : string :=
  match l with
  | [] => ""
  | [(p, m)] => p ++ ": " ++ m
  | (p, m) :: r => p ++ ": " ++ m ++ ", " ++ join_errors r
  end.

(** Index declarations (lines 91-94): the indexed path and whether the
    index is declared [unique].  None of the four [index] calls passes
    options, and no path of the schema sets [unique: true]. *)
Definition indexes : list (string * bool) :=
  [ ("name", false); ("category", false); ("price", false);
    ("featured", false) ].

End ProductSchema.

(** The key of a document under a single-path index. *)
Inductive IndexKey : Type :=
| KStr (s : string)
| KNum (n : JSNumber)
| KBool (b : bool).

Definition index_key (path : string) (d : ProductDoc) : option IndexKey :=
  if String.eqb path "name" then Some (KStr (p_name d))
  else if String.eqb path "category" then Some (KStr (p_category d))
  else if String.eqb path "price" then Some (KNum (p_price d))
  else if String.eqb path "featured" then Some (KBool (p_featured d))
  else None.

Definition number_eqb (a b : JSNumber) : bool :=
  match a, b with
  | JFin x, JFin y => Qeq_bool x y
  | JInf s, JInf t => Bool.eqb s t
  | _, _ => false
  end.

Definition index_key_eqb (a b : option IndexKey) : bool :=
  match a, b with
  | Some (KStr x), Some (KStr y) => String.eqb x y
  | Some (KNum x), Some (KNum y) => number_eqb x y
  | Some (KBool x), Some (KBool y) => Bool.eqb x y
  | _, _ => false
  end.

(** A unique index rejects a document whose key is already present. *)
Definition violates_unique_index (indexes : list (string * bool))
    (coll : list ProductDoc) (d : ProductDoc) : option string :=
  option_map fst
    (find (fun ix : string * bool =>
             snd ix &&
             existsb (fun e => index_key_eqb (index_key (fst ix) e)
                                             (index_key (fst ix) d)) coll)
          indexes).

(* ================================================================== *)
(** ** Query filters

    [getAllProducts] passes the raw search text as a [$regex] with option
    ["i"].  The fragment of the pattern language modelled here is: a
    sequence of ordinary characters and of [.] (any character but a line
    feed), found anywhere in the subject.  A pattern using another
    operator of the language has no meaning in this model ([compile]
    gives [None]). *)

Module Regex.
Import JsString.

Inductive Atom : Type :=
| Lit (c : ascii)
| AnyChar.

(** Characters with a special meaning in a pattern. *)
Definition is_meta (c : ascii) : bool :=
  JsNumber.is_char c "\^$.|?*+()[]{}".

Fixpoint compile_chars (l : list ascii) : option (list Atom) :=
  match l with
  | [] => Some []
  | c :: r =>
      match compile_chars r with
      | None => None
      | Some atoms =>
          if Ascii.eqb c "."%char then Some (AnyChar :: atoms)
          else if is_meta c then None
          else Some (Lit c :: atoms)
      end
  end.

Definition compile (pattern : string) : option (list Atom) :=
  compile_chars (chars pattern).

Definition line_feed : ascii := ascii_of_nat 10.

Definition atom_match (ci : bool) (a : Atom) (c : ascii) : bool :=
  match a with
  | Lit x => if ci then ascii_eqb_ci x c else Ascii.eqb x c
  | AnyChar => negb (Ascii.eqb c line_feed)
  end.

Fixpoint match_here (ci : bool) (atoms : list Atom) (l : list ascii) : bool :=
  match atoms, l with
  | [], _ => true
  | a :: atoms', c :: l' => atom_match ci a c && match_here ci atoms' l'
  | _ :: _, [] => false
  end.

(** An unanchored pattern matches when it matches at some position. *)
Fixpoint search (ci : bool) (atoms : list Atom) (l : list ascii) : bool :=
  match_here ci atoms l ||
  match l with
  | [] => false
  | _ :: l' => search ci atoms l'
  end.

Definition ignore_case (options : string) : bool :=
  existsb (Ascii.eqb "i"%char) (chars options).

Definition test (atoms : list Atom) (options subject : string) : bool :=
  search (ignore_case options) atoms (chars subject).

End Regex.

(** [{ <path>: { $regex, $options } }]. *)
Record RegexClause : Type := {
  rx_path : string;
  rx_regex : string;
  rx_options : string
}.

(** The [query] object of [getAllProducts]: its two optional keys. *)
Record Query : Type := {
  q_or : option (list RegexClause);
  q_category : option string
}.

Definition empty_query : Query := {| q_or := None; q_category := None |}.

Definition text_path (path : string) (d : ProductDoc) : string :=
  if String.eqb path "name" then p_name d
  else if String.eqb path "description" then p_description d
  else if String.eqb path "category" then p_category d
  else "".

Definition clause_matches (c : RegexClause) (d : ProductDoc) : option bool :=
  match Regex.compile (rx_regex c) with
  | Some atoms => Some (Regex.test atoms (rx_options c) (text_path (rx_path c) d))
  | None => None
  end.

Definition clause_supported (c : RegexClause) : bool :=
  match Regex.compile (rx_regex c) with Some _ => true | None => false end.

Definition query_supported (q : Query) : bool :=
  match q_or q with
  | Some clauses => forallb clause_supported clauses
  | None => true
  end.

Definition or_matches (clauses : list RegexClause) (d : ProductDoc) : bool :=
  existsb (fun c => match clause_matches c d with
                    | Some b => b
                    | None => false
                    end) clauses.

(** A document satisfies a query when it satisfies every key present.
    The value of the [category] key is cast through the schema path,
    whose [trim: true] setter trims it before the comparison; a [$regex]
    is used as it is. *)
Definition matches (q : Query) (d : ProductDoc) : bool :=
  match q_or q with
  | Some clauses => or_matches clauses d
  | None => true
  end
  &&
  match q_category q with
  | Some c => String.eqb (p_category d) (JsString.trim c)
  | None => true
  end.



(** How a query orders two documents of equal sort key: [tb d x] says
    that [d] goes before [x].  The sort key [createdAt] has no
    tie-breaker in the code, so this choice is the store's, and it may
    differ from one query to the next. *)
Definition TieBreak : Type := ProductDoc -> ProductDoc -> bool.

Definition collection_order : TieBreak := fun _ _ => true.

Fixpoint insert_by (tb : TieBreak) (d : ProductDoc) (l : list ProductDoc)
  : list ProductDoc :=
  match l with
  | [] => [d]
  | x :: r =>
      if (p_createdAt x <? p_createdAt d)
         || ((p_createdAt x =? p_createdAt d) && tb d x)
      then d :: l
      else x :: insert_by tb d r
  end.

(** [.sort({ createdAt: -1 })] under the tie-break [tb] of the query. *)
Definition sort_by (tb : TieBreak) (l : list ProductDoc) : list ProductDoc :=
  fold_right (insert_by tb) [] l.

(** [.skip(n).limit(m)] for [0 <= n]: a limit of [0] is no limit, a
    negative limit counts as its absolute value. *)
Definition skip_limit (skip limit : Z) (l : list ProductDoc) : list ProductDoc :=
  let rest := skipn (Z.to_nat skip) l in
  if limit =? 0 then rest else firstn (Z.to_nat (Z.abs limit)) rest.

(* ================================================================== *)
(** ** Collaborators: the world, exceptions and the action monad *)

(** A thrown value, as far as the [catch] blocks look at it. *)
Record Exn : Type := {
  e_code : option Z;
  e_message : option string
}.

Definition Error (msg : string) : Exn :=
  {| e_code := None; e_message := Some msg |}.

(** Calls made to the collaborators, in order. *)
Inductive Event : Type :=
| EvConnect
| EvCreate (data : ProductInput)
| EvFindByIdAndUpdate (id : string) (update : UpdateProductInput)
| EvFindByIdAndDelete (id : string)
| EvFindById (id : string)
| EvFind (q : Query) (skip limit : Z)
| EvCountDocuments (q : Query)
| EvSave (id : string)
| EvRevalidatePath (path : string)
| EvConsoleError (label : string).

Definition is_store_call (e : Event) : bool :=
  match e with
  | EvCreate _ | EvFindByIdAndUpdate _ _ | EvFindByIdAndDelete _
  | EvFindById _ | EvFind _ _ _ | EvCountDocuments _ | EvSave _ => true
  | _ => false
  end.

Definition is_revalidate (e : Event) : bool :=
  match e with EvRevalidatePath _ => true | _ => false end.

(** [db]: the products collection in insertion order; [nextId] and [now]
    feed [_id] and the timestamps; [log]: collaborator calls, oldest
    first; [faults]: for each coming collaborator call, whether it fails
    and with what (an exhausted schedule means no failure); [ties]: for
    each coming sorted query, the order the store gives to documents of
    equal sort key (collection order once the schedule is exhausted). *)
Record World : Type := {
  db : list ProductDoc;
  nextId : nat;
  now : Z;
  log : list Event;
  faults : list (option Exn);
  ties : list TieBreak
}.

Inductive Outcome (A : Type) : Type :=
| Ret (a : A)
| Throw (e : Exn).
Arguments Ret {A} a.
Arguments Throw {A} e.

Definition M (A : Type) : Type := World -> Outcome A * World.

Definition ret {A} (a : A) : M A := fun w => (Ret a, w).

Definition throw {A} (e : Exn) : M A := fun w => (Throw e, w).

Definition bind {A B} (m : M A) (k : A -> M B) : M B :=
  fun w =>
    match m w with
    | (Ret a, w') => k a w'
    | (Throw e, w') => (Throw e, w')
    end.

(** [try { body } catch (error) { handler }]. *)
Definition try_catch {A} (body : M A) (handler : Exn -> M A) : M A :=
  fun w =>
    match body w with
    | (Ret a, w') => (Ret a, w')
    | (Throw e, w') => handler e w'
    end.

Notation "x <- m ;; k" := (bind m (fun x => k))
  (at level 61, m at next level, right associativity).
Notation "m ;;; k" := (bind m (fun _ => k))
  (at level 61, right associativity).

Definition with_log (ev : Event) (w : World) : World :=
  {| db := db w; nextId := nextId w; now := now w;
     log := log w ++ [ev]; faults := faults w; ties := ties w |}.

Definition with_faults (fs : list (option Exn)) (w : World) : World :=
  {| db := db w; nextId := nextId w; now := now w;
     log := log w; faults := fs; ties := ties w |}.

(** The world after a sorted query has used its tie-break. *)
Definition with_ties (ts : list TieBreak) (w : World) : World :=
  {| db := db w; nextId := nextId w; now := now w;
     log := log w; faults := faults w; ties := ts |}.

(** The tie-break of the coming sorted query. *)
Definition next_tiebreak (w : World) : TieBreak :=
  hd collection_order (ties w).

(** A write to the collection; the store clock advances with it. *)
Definition with_db (coll : list ProductDoc) (w : World) : World :=
  {| db := coll; nextId := nextId w; now := now w + 1;
     log := log w; faults := faults w; ties := ties w |}.

(** The world after a collaborator call: the call is logged and its slot
    of the schedule is consumed. *)
Definition after_call (ev : Event) (w : World) : World :=
  with_faults (tl (faults w)) (with_log ev w).

(** A call to a collaborator: it is logged, and it fails if the schedule
    says so. *)
Definition call (ev : Event) : M unit :=
  fun w =>
    match hd None (faults w) with
    | Some e => (Throw e, after_call ev w)
    | None => (Ret tt, after_call ev w)
    end.

Definition get_db : M (list ProductDoc) := fun w => (Ret (db w), w).

(** [await dbConnect()]. *)
Definition dbConnect : M unit := call EvConnect.

(** [revalidatePath(path)]. *)
Definition revalidatePath (path : string) : M unit :=
  call (EvRevalidatePath path).

(** [console.error(label, error)]: logged, never fails. *)
Definition console_error (label : string) : M unit :=
  fun w => (Ret tt, with_log (EvConsoleError label) w).

(* ================================================================== *)
(** ** ObjectIds

    The schema declares no [_id] path, so documents carry the default
    [_id], an ObjectId, and every id text an action passes to the model
    is cast to one. *)

Module ObjectId.

Definition is_digit (c : ascii) : bool :=
  let n := nat_of_ascii c in ((48 <=? n) && (n <=? 57))%nat.

Definition is_lower_hex (c : ascii) : bool :=
  let n := nat_of_ascii c in
  is_digit c || ((97 <=? n) && (n <=? 102))%nat.

Definition is_hex (c : ascii) : bool :=
  let n := nat_of_ascii c in
  is_lower_hex c || ((65 <=? n) && (n <=? 70))%nat.

(** The texts that cast to an ObjectId: 24 hexadecimal digits. *)
Definition well_formed (s : string) : bool :=
  (String.length s =? 24)%nat && forallb is_hex (JsString.chars s).


Fixpoint zeros (k : nat) (s : string) : string :=
  match k with
  | O => s
  | S k' => String "0" (zeros k' s)
  end.

(** The text of the [n]-th id the store issues: the numeral of [n],
    padded to 24 digits. *)
Definition of_nat (n : nat) : string :=
  let s := NilEmpty.string_of_uint (Nat.to_uint n) in
  zeros (24 - String.length s) s.

Definition to_nat (s : string) : option nat :=
  option_map Nat.of_uint (NilEmpty.uint_of_string s).

(** [s] is the text of an id the store can issue. *)
Definition issued_text (s : string) : bool :=
  match to_nat s with
  | Some k => String.eqb (of_nat k) s
  | None => false
  end.

End ObjectId.

(* ================================================================== *)
(** ** The Mongoose model [Product] *)

Module Product.

Definition MongooseValidationError (errs : list (string * string)) : Exn :=
  Error ("Product validation failed: " ++ ProductSchema.join_errors errs).

(** The failure of the validators of an update, which run on the update
    and not on a document of the model. *)
Definition UpdateValidationError (errs : list (string * string)) : Exn :=
  Error ("Validation failed: " ++ ProductSchema.join_errors errs).

Definition DuplicateKey (path : string) : Exn :=
  {| e_code := Some 11000;
     e_message := Some ("E11000 duplicate key error index: " ++ path) |}.

Definition fresh_id (n : nat) : string := ObjectId.of_nat n.

Definition by_id (id : string) (d : ProductDoc) : bool :=
  String.eqb (p_id d) id.

Definition quote : string := String (ascii_of_nat 34) "".

(** The failure of the cast of an id text to the [_id] path, with the
    text Mongoose gives it. *)
Definition CastError (id : string) : Exn :=
  Error ("Cast to ObjectId failed for value " ++ quote ++ id ++ quote
         ++ " (type string) at path " ++ quote ++ "_id" ++ quote
         ++ " for model " ++ quote ++ "Product" ++ quote).

(** The id text casts to an ObjectId: it has the form of one, 24
    hexadecimal digits (the 12-character form that some versions of the
    driver also read is not modelled).  The ids held by the collection
    and the ids the store issues are ObjectIds by construction, so
    their texts cast as well (the store of this model goes on issuing
    ids, as longer numerals, once the 24-digit ones are used up).  The
    lookup itself compares the texts. *)
Definition casts (coll : list ProductDoc) (id : string) : bool :=
  ObjectId.well_formed id || ObjectId.issued_text id
  || existsb (by_id id) coll.

Fixpoint replace_first (id : string) (d' : ProductDoc)
    (l : list ProductDoc) : list ProductDoc :=
  match l with
  | [] => []
  | d :: r => if by_id id d then d' :: r else d :: replace_first id d' r
  end.

Fixpoint remove_first (id : string) (l : list ProductDoc) : list ProductDoc :=
  match l with
  | [] => []
  | d :: r => if by_id id d then r else d :: remove_first id r
  end.

(** The document [create] inserts: setters applied, fresh [_id], both
    timestamps set to the current time. *)
Definition new_doc (w : World) (data : ProductInput) : ProductDoc :=
  {| p_id := fresh_id (nextId w);
     p_name := JsString.trim (in_name data);
     p_description := JsString.trim (in_description data);
     p_price := in_price data;
     p_stock := in_stock data;
     p_category := JsString.trim (in_category data);
     p_images := in_images data;
     p_featured := in_featured data;
     p_createdAt := now w;
     p_updatedAt := now w |}.

(** [Product.create(data)]. *)
Definition create (data : ProductInput) : M ProductDoc :=
  call (EvCreate data) ;;;
  match ProductSchema.document_errors (in_name data) (in_description data)
          (in_price data) (in_stock data) (in_category data)
          (in_images data) with
  | (_ :: _) as errs => throw (MongooseValidationError errs)
  | [] =>
      fun w =>
        let d := new_doc w data in
        match violates_unique_index ProductSchema.indexes (db w) d with
        | Some path => (Throw (DuplicateKey path), w)
        | None =>
            (Ret d,
             {| db := db w ++ [d]; nextId := S (nextId w); now := now w + 1;
                log := log w; faults := faults w; ties := ties w |})
        end
  end.

(** [Product.findById(id)]. *)
Definition findById (id : string) : M (option ProductDoc) :=
  call (EvFindById id) ;;;
  coll <- get_db ;;
  if casts coll id then ret (find (by_id id) coll)
  else throw (CastError id).

(** [Product.findByIdAndDelete(id)]. *)
Definition findByIdAndDelete (id : string) : M (option ProductDoc) :=
  call (EvFindByIdAndDelete id) ;;;
  fun w =>
    if casts (db w) id then
      match find (by_id id) (db w) with
      | Some d => (Ret (Some d), with_db (remove_first id (db w)) w)
      | None => (Ret None, w)
      end
    else (Throw (CastError id), w).

Definition or_else {A} (o : option A) (d : A) : A :=
  match o with Some x => x | None => d end.

(** [$set] of the supplied paths, setters applied, [updatedAt] bumped. *)
Definition apply_update (t : Z) (u : UpdateProductInput) (d : ProductDoc)
  : ProductDoc :=
  {| p_id := p_id d;
     p_name := or_else (option_map JsString.trim (set_name u)) (p_name d);
     p_description :=
       or_else (option_map JsString.trim (set_description u))
               (p_description d);
     p_price := or_else (set_price u) (p_price d);
     p_stock := or_else (set_stock u) (p_stock d);
     p_category :=
       or_else (option_map JsString.trim (set_category u)) (p_category d);
     p_images := or_else (set_images u) (p_images d);
     p_featured := or_else (set_featured u) (p_featured d);
     p_createdAt := p_createdAt d;
     p_updatedAt := t |}.

(** [Product.findByIdAndUpdate(id, update, { new: true,
    runValidators: true })]: the updated document, or [null]. *)
Definition findByIdAndUpdate (id : string) (u : UpdateProductInput)
  : M (option ProductDoc) :=
  call (EvFindByIdAndUpdate id u) ;;;
  fun w =>
    if casts (db w) id then
      match ProductSchema.update_errors u with
      | (_ :: _) as errs => (Throw (UpdateValidationError errs), w)
      | [] =>
          match find (by_id id) (db w) with
          | Some d =>
              let d' := apply_update (now w) u d in
              (Ret (Some d'), with_db (replace_first id d' (db w)) w)
          | None => (Ret None, w)
          end
      end
    else (Throw (CastError id), w).

(** [product.save()] on a loaded and modified document. *)
Definition save (d : ProductDoc) : M ProductDoc :=
  call (EvSave (p_id d)) ;;;
  match ProductSchema.document_errors (p_name d) (p_description d)
          (p_price d) (p_stock d) (p_category d) (p_images d) with
  | (_ :: _) as errs => throw (MongooseValidationError errs)
  | [] =>
      fun w =>
        let d' :=
          {| p_id := p_id d; p_name := p_name d;
             p_description := p_description d; p_price := p_price d;
             p_stock := p_stock d; p_category := p_category d;
             p_images := p_images d; p_featured := p_featured d;
             p_createdAt := p_createdAt d; p_updatedAt := now w |} in
        (Ret d', with_db (replace_first (p_id d) d' (db w)) w)
  end.

(** The check both read queries make before running: the filter must
    be one the store understands. *)
Definition check_query (q : Query) : M unit :=
  if query_supported q then ret tt
  else throw (Error "Regular expression is invalid").

(** [Product.find(q).sort({createdAt: -1}).skip(skip).limit(limit).lean()]. *)
Definition find_sorted (q : Query) (skip limit : Z) : M (list ProductDoc) :=
  call (EvFind q skip limit) ;;;
  check_query q ;;;
  if skip <? 0 then throw (Error "Skip value must be non-negative")
  else
    fun w =>
      (Ret (skip_limit skip limit
              (sort_by (next_tiebreak w) (filter (matches q) (db w)))),
       with_ties (tl (ties w)) w).

(** [Product.countDocuments(q)]. *)
Definition countDocuments (q : Query) : M Z :=
  call (EvCountDocuments q) ;;;
  check_query q ;;;
  coll <- get_db ;;
  ret (Z.of_nat (List.length (filter (matches q) coll))).

End Product.

(** [Promise.all([a, b])] awaited: both operations are started; the
    first rejection, if any, is the rejection of the whole. *)
Definition promise_all2 {A B} (a : M A) (b : M B) : M (A * B) :=
  fun w =>
    match a w with
    | (ra, w1) =>
        match b w1 with
        | (rb, w2) =>
            match ra, rb with
            | Ret x, Ret y => (Ret (x, y), w2)
            | Throw e, _ => (Throw e, w2)
            | Ret _, Throw e => (Throw e, w2)
            end
        end
    end.

(* ================================================================== *)
(** ** The server actions (src/lib/actions/productActions.ts) *)

Inductive ResponseData : Type :=
| DataProduct (product : ProductDoc)
| DataList (products : list ProductDoc)
           (page limit total : Z) (totalPages : JSNumber)
| DataMessage (message : string).

(** [ActionResponse]. *)
Record ActionResponse : Type := {
  success : bool;
  data : option ResponseData;
  error : option string;
  errors : option (list FieldError)
}.

Definition ok (d : ResponseData) : ActionResponse :=
  {| success := true; data := Some d; error := None; errors := None |}.

Definition failure (msg : string) : ActionResponse :=
  {| success := false; data := None; error := Some msg; errors := None |}.

Definition validation_failed (errs : list FieldError) : ActionResponse :=
  {| success := false; data := None; error := Some "Validation failed";
     errors := Some errs |}.

(** [error.message || fallback]. *)
Definition message_or (e : Exn) (fallback : string) : string :=
  match e_message e with
  | Some m => if String.eqb m "" then fallback else m
  | None => fallback
  end.

(** [error.code === 11000]. *)
Definition is_duplicate_key (e : Exn) : bool :=
  match e_code e with
  | Some c => c =? 11000
  | None => false
  end.

(** [JSON.parse(JSON.stringify(x))]: a plain snapshot of the value. *)
Definition snapshot {A} (x : A) : A := x.

(** [params] of [getAllProducts]; [None] is [undefined].  [page] and
    [limit] are taken integer-valued. *)
Record ListParams : Type := {
  search : option string;
  category : option string;
  page : option Z;
  limit : option Z
}.

Definition no_params : ListParams :=
  {| search := None; category := None; page := None; limit := None |}.

(** Destructuring default [x = d]. *)
Definition default {A} (o : option A) (d : A) : A :=
  match o with Some x => x | None => d end.

(** [if (s)] on a string: the empty string is falsy. *)
Definition truthy (s : string) : bool := negb (String.eqb s "").

(** Lines 201-212. *)
Definition build_query (search category : string) : Query :=
  {| q_or :=
       if truthy search then
         Some [ {| rx_path := "name"; rx_regex := search; rx_options := "i" |};
                {| rx_path := "description"; rx_regex := search;
                   rx_options := "i" |} ]
       else None;
     q_category := if truthy category then Some category else None |}.

Section Actions.

Context {V : ValidationModule}.

Definition createProduct_try (formData : FormData) : M ActionResponse :=
  dbConnect ;;;
  let rawData := createRawData formData in
  match validateProduct rawData with
  | ParseErr err => ret (validation_failed (formatValidationErrors err))
  | ParseOk input =>
      product <- Product.create input ;;
      revalidatePath "/dashboard/products" ;;;
      ret (ok (DataProduct (snapshot product)))
  end.

Definition createProduct_catch (e : Exn) : M ActionResponse :=
  console_error "Error creating product:" ;;;
  if is_duplicate_key e then
    ret (failure "A product with this name already exists")
  else
    ret (failure (message_or e "Failed to create product. Please try again.")).

Definition createProduct (formData : FormData) : M ActionResponse :=
  try_catch (createProduct_try formData) createProduct_catch.

Definition updateProduct_try (id : string) (formData : FormData)
  : M ActionResponse :=
  dbConnect ;;;
  let rawData := updateRawData formData in
  match validateUpdateProduct rawData with
  | ParseErr err => ret (validation_failed (formatValidationErrors err))
  | ParseOk input =>
      product <- Product.findByIdAndUpdate id input ;;
      match product with
      | None => ret (failure "Product not found")
      | Some p =>
          revalidatePath "/dashboard/products" ;;;
          revalidatePath ("/dashboard/products/" ++ id) ;;;
          ret (ok (DataProduct (snapshot p)))
      end
  end.

Definition updateProduct_catch (e : Exn) : M ActionResponse :=
  console_error "Error updating product:" ;;;
  ret (failure (message_or e "Failed to update product. Please try again.")).

Definition updateProduct (id : string) (formData : FormData)
  : M ActionResponse :=
  try_catch (updateProduct_try id formData) updateProduct_catch.

Definition deleteProduct_try (id : string) : M ActionResponse :=
  dbConnect ;;;
  product <- Product.findByIdAndDelete id ;;
  match product with
  | None => ret (failure "Product not found")
  | Some _ =>
      revalidatePath "/dashboard/products" ;;;
      ret (ok (DataMessage "Product deleted successfully"))
  end.

Definition deleteProduct_catch (e : Exn) : M ActionResponse :=
  console_error "Error deleting product:" ;;;
  ret (failure (message_or e "Failed to delete product. Please try again.")).

Definition deleteProduct (id : string) : M ActionResponse :=
  try_catch (deleteProduct_try id) deleteProduct_catch.

Definition getProductById_try (id : string) : M ActionResponse :=
  dbConnect ;;;
  product <- Product.findById id ;;
  match product with
  | None => ret (failure "Product not found")
  | Some p => ret (ok (DataProduct (snapshot p)))
  end.

Definition getProductById_catch (e : Exn) : M ActionResponse :=
  console_error "Error fetching product:" ;;;
  ret (failure (message_or e "Failed to fetch product. Please try again.")).

Definition getProductById (id : string) : M ActionResponse :=
  try_catch (getProductById_try id) getProductById_catch.

Definition getAllProducts_try (params : option ListParams)
  : M ActionResponse :=
  dbConnect ;;;
  let p := default params no_params in
  let search := default (search p) "" in
  let category := default (category p) "" in
  let page := default (page p) 1 in
  let limit := default (limit p) 10 in
  let query := build_query search category in
  let skip := (page - 1) * limit in
  r <- promise_all2 (Product.find_sorted query skip limit)
                    (Product.countDocuments query) ;;
  let '(products, total) := r in
  ret (ok (DataList (snapshot products) page limit total
                    (JsNumber.ceil (JsNumber.div total limit)))).

Definition getAllProducts_catch (e : Exn) : M ActionResponse :=
  console_error "Error fetching products:" ;;;
  ret (failure (message_or e "Failed to fetch products. Please try again.")).

Definition getAllProducts (params : option ListParams) : M ActionResponse :=
  try_catch (getAllProducts_try params) getAllProducts_catch.

Definition toggle (p : ProductDoc) : ProductDoc :=
  {| p_id := p_id p; p_name := p_name p; p_description := p_description p;
     p_price := p_price p; p_stock := p_stock p; p_category := p_category p;
     p_images := p_images p; p_featured := negb (p_featured p);
     p_createdAt := p_createdAt p; p_updatedAt := p_updatedAt p |}.

Definition toggleFeaturedStatus_try (id : string) : M ActionResponse :=
  dbConnect ;;;
  product <- Product.findById id ;;
  match product with
  | None => ret (failure "Product not found")
  | Some p =>
      saved <- Product.save (toggle p) ;;
      revalidatePath "/dashboard/products" ;;;
      revalidatePath ("/dashboard/products/" ++ id) ;;;
      ret (ok (DataProduct (snapshot saved)))
  end.

Definition toggleFeaturedStatus_catch (e : Exn) : M ActionResponse :=
  console_error "Error toggling featured status:" ;;;
  ret (failure (message_or e "Failed to update product. Please try again.")).

Definition toggleFeaturedStatus (id : string) : M ActionResponse :=
  try_catch (toggleFeaturedStatus_try id) toggleFeaturedStatus_catch.

End Actions.

(* ================================================================== *)
(** ** A model of the validation module *)

Module SpecValidation.

(** Modelled from the spec: [trimmed length in [lo,hi]] on a value that
    must be text; the module [@/lib/validations/Product] that holds the
    rule is not among the source files.  The result is the trimmed
    text. *)
Definition check_text (lo hi : Z) (v : option FormDataEntryValue)
  : option string :=
  match v with
  | Some (EStr s) =>
      let t := JsString.trim s in
      if (lo <=? ProductSchema.strlen t) && (ProductSchema.strlen t <=? hi)
      then Some t else None
  | _ => None
  end.

(** Modelled from the spec: [price | numeric, >= 0], a non-negative
    real number (module [@/lib/validations/Product] is missing). *)
Definition check_price (v : JSNumber) : option JSNumber :=
  match v with
  | JFin q => if Qle_bool 0%Q q then Some v else None
  | _ => None
  end.

(** Modelled from the spec: [stock | integer, >= 0] (module
    [@/lib/validations/Product] is missing). *)
Definition check_stock (v : JSNumber) : option JSNumber :=
  match v with
  | JFin q =>
      if Qle_bool 0%Q q && JsNumber.isInteger v then Some v else None
  | _ => None
  end.

(** Modelled from the spec: [category | member of fixed 8-value
    enumeration] (module [@/lib/validations/Product] is missing). *)
Definition check_category (v : option FormDataEntryValue) : option string :=
  match v with
  | Some (EStr s) =>
      if existsb (String.eqb s)
           ["Electronics"; "Clothing"; "Food"; "Books"; "Home"; "Sports";
            "Toys"; "Other"]
      then Some s else None
  | _ => None
  end.

(** Modelled from the spec: the entries of [images] must be non-empty
    strings (module [@/lib/validations/Product] is missing). *)
Fixpoint all_text (l : list FormDataEntryValue) : option (list string) :=
  match l with
  | [] => Some []
  | EStr s :: r =>
      if String.eqb s "" then None
      else option_map (cons s) (all_text r)
  | EFile _ :: _ => None
  end.

(** Modelled from the spec: [images | <=5 non-empty strings] (module
    [@/lib/validations/Product] is missing). *)
Definition check_images (v : list FormDataEntryValue) : option (list string) :=
  match all_text v with
  | Some l => if Z.of_nat (List.length l) <=? 5 then Some l else None
  | None => None
  end.

(** Modelled from the spec: a [{field, message}] pair for a field that
    fails its rule; the message is the rule of the field table (module
    [@/lib/validations/Product] is missing). *)
Definition field_error (f rule : string) {A} (r : option A)
  : list FieldError :=
  match r with
  | Some _ => []
  | None => [ {| field := f; message := rule |} ]
  end.

(** Modelled from the spec: the rules of the field constraint table,
    used as messages (module [@/lib/validations/Product] is missing). *)
Definition rule_name : string := "trimmed length in [3,100]".
Definition rule_description : string := "trimmed length in [1,1000]".
Definition rule_price : string := "numeric, >= 0".
Definition rule_stock : string := "integer, >= 0".
Definition rule_category : string := "member of fixed 8-value enumeration".
Definition rule_images : string := "<=5 non-empty strings".

(** Modelled from the spec: [validateCreate], every field checked
    independently, errors in field-declaration order, a fully populated
    payload on success (module [@/lib/validations/Product] is
    missing). *)
Definition validateCreate (raw : RawProduct)
  : SafeParse (list FieldError) ProductInput :=
  let n := check_text 3 100 (raw_name raw) in
  let d := check_text 1 1000 (raw_description raw) in
  let p := check_price (raw_price raw) in
  let s := check_stock (raw_stock raw) in
  let c := check_category (raw_category raw) in
  let i := check_images (raw_images raw) in
  match n, d, p, s, c, i with
  | Some n', Some d', Some p', Some s', Some c', Some i' =>
      ParseOk {| in_name := n'; in_description := d'; in_price := p';
                 in_stock := s'; in_category := c'; in_images := i';
                 in_featured := raw_featured raw |}
  | _, _, _, _, _, _ =>
      ParseErr (field_error "name" rule_name n
                ++ field_error "description" rule_description d
                ++ field_error "price" rule_price p
                ++ field_error "stock" rule_stock s
                ++ field_error "category" rule_category c
                ++ field_error "images" rule_images i)%list
  end.

(** Modelled from the spec: only supplied fields are checked, a field
    absent from the input is absent from the output (module
    [@/lib/validations/Product] is missing). *)
Definition supplied {A B} (check : A -> option B) (v : option A)
  : option (option B) :=
  match v with
  | Some x => match check x with Some y => Some (Some y) | None => None end
  | None => Some None
  end.

(** Modelled from the spec: [validateUpdate], only supplied fields are
    coerced and checked, fields absent from the input are absent from
    the output (module [@/lib/validations/Product] is missing). *)
Definition validateUpdate (raw : RawUpdate)
  : SafeParse (list FieldError) UpdateProductInput :=
  let n := supplied (fun v => check_text 3 100 (Some v)) (upd_name raw) in
  let d := supplied (fun v => check_text 1 1000 (Some v))
                    (upd_description raw) in
  let p := supplied check_price (upd_price raw) in
  let s := supplied check_stock (upd_stock raw) in
  let c := supplied (fun v => check_category (Some v)) (upd_category raw) in
  let i := supplied check_images (upd_images raw) in
  match n, d, p, s, c, i with
  | Some n', Some d', Some p', Some s', Some c', Some i' =>
      ParseOk {| set_name := n'; set_description := d'; set_price := p';
                 set_stock := s'; set_category := c'; set_images := i';
                 set_featured := upd_featured raw |}
  | _, _, _, _, _, _ =>
      ParseErr (field_error "name" rule_name n
                ++ field_error "description" rule_description d
                ++ field_error "price" rule_price p
                ++ field_error "stock" rule_stock s
                ++ field_error "category" rule_category c
                ++ field_error "images" rule_images i)%list
  end.

(** Modelled from the spec: the module [@/lib/validations/Product], with
    a list of field errors as its error value. *)
#[export] Instance module : ValidationModule := {|
  ValidationError := list FieldError;
  validateProduct := validateCreate;
  validateUpdateProduct := validateUpdate;
  formatValidationErrors := fun errs => errs
|}.

End SpecValidation.

(* ================================================================== *)
(** ** Sample data *)

Module Sample.

Definition form (name price : string) : FormData :=
  [ ("name", EStr name);
    ("description", EStr "Two-button optical mouse");
    ("price", EStr price);
    ("stock", EStr "7");
    ("category", EStr "Electronics") ].

(** A valid form that carries no [stock]. *)
Definition form_no_stock : FormData :=
  [ ("name", EStr "Wireless Mouse");
    ("description", EStr "Two-button optical mouse");
    ("price", EStr "12.50");
    ("category", EStr "Electronics") ].

(** A valid form that carries neither [price] nor [stock]. *)
Definition form_no_numbers : FormData :=
  [ ("name", EStr "Wireless Mouse");
    ("description", EStr "Two-button optical mouse");
    ("category", EStr "Electronics") ].

Definition world0 : World :=
  {| db := []; nextId := 0; now := 1000; log := []; faults := []; ties := [] |}.

Definition doc (id name description : string) (featured : bool) (t : Z)
  : ProductDoc :=
  {| p_id := id; p_name := name; p_description := description;
     p_price := JFin (25 # 2); p_stock := JFin (3 # 1);
     p_category := "Electronics"; p_images := ["a.png"; "b.png"];
     p_featured := featured; p_createdAt := t; p_updatedAt := t |}.

(** The id of the sample product, the text of an id that matches no
    product, and a text that is not the text of an ObjectId. *)
Definition mouse_id : string := "000000000000000000000000".

Definition mouse : ProductDoc :=
  doc mouse_id "Wireless Mouse" "Two-button optical mouse" false 1000.

Definition world1 : World :=
  {| db := [mouse]; nextId := 1; now := 1001; log := []; faults := []; ties := [] |}.

(** A catalogue of 25 products created one after the other. *)
Definition numbered (n : nat) : ProductDoc :=
  doc (Product.fresh_id n) ("Product " ++ Product.fresh_id n)
      "Catalogue entry" false (1000 + Z.of_nat n).

Definition catalogue : list ProductDoc := map numbered (seq 0 25).

Definition world25 : World :=
  {| db := catalogue; nextId := 25; now := 1025; log := []; faults := []; ties := [] |}.


(** An update form that sets the price and submits one empty [images]
    entry, and the payload the validator model makes of it. *)
Definition update_form : FormData :=
  [ ("price", EStr "19.99"); ("images", EStr "") ].

Definition update_payload : UpdateProductInput :=
  {| set_name := None; set_description := None;
     set_price := Some (JFin (1999 # 100)); set_stock := None;
     set_category := None; set_images := None; set_featured := None |}.

(** The payload the validator model makes of [form "Wireless Mouse"
    "12.50"]. *)
Definition valid_input : ProductInput :=
  {| in_name := "Wireless Mouse";
     in_description := "Two-button optical mouse";
     in_price := JFin (1250 # 100); in_stock := JFin (7 # 1);
     in_category := "Electronics"; in_images := []; in_featured := false |}.

(** A world whose connection attempt fails. *)
Definition world_down : World :=
  {| db := [mouse]; nextId := 1; now := 1001; log := [];
     faults := [Some (Error "connect ECONNREFUSED")]; ties := [] |}.

End Sample.

(* ================================================================== *)
(** ** Worlds in which no collaborator fails *)

(** No failure is scheduled. *)
Definition quiet (w : World) : Prop :=
  Forall (fun f => f = None) (faults w).

(** The events a run added to the log. *)
Definition added (w w' : World) (evs : list Event) : Prop :=
  log w' = (log w ++ evs)%list.

Definition no_store_call (evs : list Event) : bool :=
  forallb (fun e => negb (is_store_call e)) evs.

Definition revalidated (evs : list Event) : list Event :=
  filter is_revalidate evs.



(** [needle] occurs in [hay] as a contiguous block, letter case apart:
    the specification's "case-insensitive substring". *)
Definition ci_substring (needle hay : string) : Prop :=
  exists pre post : list ascii,
    JsString.lower_chars (JsString.chars hay)
    = (pre ++ JsString.lower_chars (JsString.chars needle) ++ post)%list.




(** The stored document validates against the schema. *)
Definition schema_valid (d : ProductDoc) : Prop :=
  ProductSchema.document_errors (p_name d) (p_description d) (p_price d)
    (p_stock d) (p_category d) (p_images d) = [].

(** The document [save] writes back after a toggle. *)
Definition toggled_at (t : Z) (d : ProductDoc) : ProductDoc :=
  {| p_id := p_id d; p_name := p_name d; p_description := p_description d;
     p_price := p_price d; p_stock := p_stock d; p_category := p_category d;
     p_images := p_images d; p_featured := negb (p_featured d);
     p_createdAt := p_createdAt d; p_updatedAt := t |}.


(* ================================================================== *)
(** ** Vocabulary of the further properties *)

(** The ids of the collection are pairwise distinct and were all issued
    by the store. *)
Definition ids_issued (w : World) : Prop :=
  NoDup (map p_id (db w)) /\
  forall d, In d (db w) ->
    exists k, (k < nextId w)%nat /\ p_id d = Product.fresh_id k.

(** Every stored document validates against the schema. *)
Definition all_valid (w : World) : Prop := Forall schema_valid (db w).

(** The documents stored under another id than [id]. *)
Definition others (id : string) (coll : list ProductDoc) : list ProductDoc :=
  filter (fun d => negb (Product.by_id id d)) coll.

(** The response envelope is one of its two shapes: a success carries
    data and no error; a failure carries a non-empty error text and no
    data, and field errors only under ['Validation failed']. *)
Definition well_formed (r : ActionResponse) : Prop :=
  if success r then
    data r <> None /\ error r = None /\ errors r = None
  else
    data r = None /\
    (exists msg, error r = Some msg /\ msg <> "") /\
    (errors r <> None -> error r = Some "Validation failed").

(** What the schema asks of a document. *)
Definition schema_accepts (name description : string) (price stock : JSNumber)
    (category : string) (images : list string) : Prop :=
  3 <= ProductSchema.strlen (JsString.trim name) <= 100 /\
  1 <= ProductSchema.strlen (JsString.trim description) <= 1000 /\
  JsNumber.ge0 price = true /\
  JsNumber.ge0 stock = true /\ JsNumber.isInteger stock = true /\
  In (JsString.trim category) ProductSchema.categories /\
  (List.length images <= 5)%nat.

(** [params] with its [page] set. *)
Definition with_page (p : ListParams) (k : Z) : ListParams :=
  {| search := search p; category := category p;
     page := Some k; limit := limit p |}.

(** The [products] of a listing response (none for any other response). *)
Definition listed (r : ActionResponse) : list ProductDoc :=
  match data r with
  | Some (DataList items _ _ _ _) => items
  | _ => []
  end.

(** [n] successive calls of [getAllProducts], for the pages [k], [k+1],
    ...: the products they list, in order. *)
Fixpoint walk_pages (p : ListParams) (k : Z) (n : nat) (w : World)
  : list ProductDoc :=
  match n with
  | O => []
  | S n' =>
      match getAllProducts (Some (with_page p k)) w with
      | (Ret r, w') => (listed r ++ walk_pages p (k + 1) n' w')%list
      | (Throw _, _) => []
      end
  end.

(* ================================================================== *)
(** ** The [toJSON] transform of the schema (Product.ts, lines 79-87) *)

Module ToJSON.
Section Transform.

(** The values of a plain object, with the two conversions the transform
    uses: a string is a value, and a value has a [toString()]. *)
Context {Value : Type}.
Variable of_string : string -> Value.
Variable toString : Value -> string.

(** A plain object: its own keys in insertion order, no key twice. *)
Definition Obj : Type := list (string * Value).

(** [o[k]]: [None] is [undefined]. *)
Fixpoint lookup (k : string) (o : Obj) : option Value :=
  match o with
  | [] => None
  | (k', v) :: r => if String.eqb k' k then Some v else lookup k r
  end.

(** [o[k] = v]: an existing key keeps its place, a new key goes last. *)
Fixpoint assign (k : string) (v : Value) (o : Obj) : Obj :=
  match o with
  | [] => [(k, v)]
  | (k', v') :: r =>
      if String.eqb k' k then (k, v) :: r else (k', v') :: assign k v r
  end.

(** [delete o[k]]. *)
Fixpoint delete (k : string) (o : Obj) : Obj :=
  match o with
  | [] => []
  | (k', v') :: r =>
      if String.eqb k' k then delete k r else (k', v') :: delete k r
  end.

(** [transform(doc, ret)]: [ret.id = ret._id.toString(); delete ret._id;
    delete ret.__v; return ret].  Reading [toString] off a missing [_id]
    throws ([None]). *)
Definition transform (ret : Obj) : option Obj :=
  match lookup "_id" ret with
  | Some v =>
      Some (delete "__v" (delete "_id" (assign "id" (of_string (toString v)) ret)))
  | None => None
  end.

End Transform.
End ToJSON.


(** The fields of a document that a toggle leaves alone. *)
Definition untoggled (d : ProductDoc) :=
  (p_id d, p_name d, p_description d, p_price d, p_stock d, p_category d,
   p_images d, p_createdAt d).

(** Further sample data. *)
Module Sample2.

(** The text of a form entry, the empty text for a file or a missing
    entry. *)
Definition text (v : option FormDataEntryValue) : string :=
  match v with
  | Some (EStr s) => s
  | _ => ""
  end.

Fixpoint texts (l : list FormDataEntryValue) : list string :=
  match l with
  | [] => []
  | EStr s :: r => s :: texts r
  | EFile f :: r => f :: texts r
  end.

(** A validation module that checks nothing: every form goes through
    with its values as read. *)
Definition lenient : ValidationModule :=
  {| ValidationError := unit;
     validateProduct := fun raw =>
       ParseOk {| in_name := text (raw_name raw);
                  in_description := text (raw_description raw);
                  in_price := raw_price raw; in_stock := raw_stock raw;
                  in_category := text (raw_category raw);
                  in_images := texts (raw_images raw);
                  in_featured := raw_featured raw |};
     validateUpdateProduct := fun raw =>
       ParseOk {| set_name := option_map (fun v => text (Some v)) (upd_name raw);
                  set_description :=
                    option_map (fun v => text (Some v)) (upd_description raw);
                  set_price := upd_price raw; set_stock := upd_stock raw;
                  set_category :=
                    option_map (fun v => text (Some v)) (upd_category raw);
                  set_images := option_map texts (upd_images raw);
                  set_featured := upd_featured raw |};
     formatValidationErrors := fun _ => [] |}.

(** A form with a negative price, and what [lenient] makes of it. *)
Definition negative_price_form : FormData := [ ("price", EStr "-5") ].

Definition negative_price_input : ProductInput :=
  {| in_name := ""; in_description := ""; in_price := JFin (-5 # 1);
     in_stock := JFin 0; in_category := ""; in_images := [];
     in_featured := false |}.

Definition negative_price_update : UpdateProductInput :=
  {| set_name := None; set_description := None;
     set_price := Some (JFin (-5 # 1)); set_stock := None;
     set_category := None; set_images := None; set_featured := None |}.

(** A world in which the connection and the store answer and the cache
    invalidation fails. *)
Definition world_cache_down : World :=
  {| db := [Sample.mouse]; nextId := 1; now := 1001; log := [];
     faults := [None; None; Some (Error "cache unavailable")]; ties := [] |}.

(** Two products created at the same time, and a store that orders
    them one way for its first query and the other way for its second. *)
Definition twin_a : ProductDoc :=
  Sample.doc "0000000000000000000000a1" "Twin A" "First twin" false 1000.

Definition twin_b : ProductDoc :=
  Sample.doc "0000000000000000000000b2" "Twin B" "Second twin" false 1000.

Definition world_twins : World :=
  {| db := [twin_a; twin_b]; nextId := 2; now := 1001; log := [];
     faults := []; ties := [collection_order; fun _ _ => false] |}.

Definition one_per_page : ListParams :=
  {| search := None; category := None; page := None; limit := Some 1 |}.

(** String values, for the [toJSON] transform. *)
Definition plain_doc : ToJSON.Obj (Value := string) :=
  [ ("_id", "65f0c0ffee"); ("name", "Wireless Mouse"); ("__v", "0") ].

End Sample2.

Create HintDb world.

(* ================================================================== *)
(** ** Evaluation of [Number] on sample texts *)

Example Number_empty : JsNumber.of_string "" = JFin 0%Q.
Proof. reflexivity. Qed.

Example Number_blank : JsNumber.of_string "  " = JFin 0%Q.
Proof. reflexivity. Qed.

Example Number_abc : JsNumber.of_string "abc" = JNaN.
Proof. reflexivity. Qed.

Example Number_12_5 : JsNumber.of_string " 12.50 " = JFin (1250 # 100)%Q.
Proof. vm_compute. reflexivity. Qed.

Example Number_hex : JsNumber.of_string "0x1F" = JFin (31 # 1)%Q.
Proof. reflexivity. Qed.

Example Number_exp : JsNumber.of_string "-1e2" = JFin (-100 # 1)%Q.
Proof. vm_compute. reflexivity. Qed.

Example Number_trailing : JsNumber.of_string "12px" = JNaN.
Proof. reflexivity. Qed.

Example Number_dot : JsNumber.of_string "." = JNaN.
Proof. reflexivity. Qed.

(* ================================================================== *)
(** ** Collaborator calls in a quiet world *)

Lemma quiet_after_call ev w : quiet w -> quiet (after_call ev w).
Proof.
  unfold quiet, after_call; simpl.
  destruct (faults w); simpl; intros H; [constructor|].
  now inversion H.
Qed.

Lemma call_quiet ev w :
  quiet w -> call ev w = (Ret tt, after_call ev w).
Proof.
  unfold quiet, call. destruct (faults w) as [|f fs]; simpl; [reflexivity|].
  intros H. inversion H; subst. reflexivity.
Qed.

Lemma quiet_with_db coll w : quiet w -> quiet (with_db coll w).
Proof. exact (fun H => H). Qed.

Lemma quiet_same_faults w w' : faults w' = faults w -> quiet w -> quiet w'.
Proof. unfold quiet. now intros ->. Qed.

Lemma db_after_call ev w : db (after_call ev w) = db w.
Proof. reflexivity. Qed.

Lemma log_after_call ev w : log (after_call ev w) = (log w ++ [ev])%list.
Proof. reflexivity. Qed.

Lemma quiet_with_ties t w : quiet w -> quiet (with_ties t w).
Proof. exact (fun H => H). Qed.

#[local] Hint Resolve quiet_after_call quiet_with_db quiet_with_ties : world.

(** Every index of the schema is non-unique, so no insertion is ever
    rejected for a duplicate key. *)
Lemma no_unique_index coll d :
  violates_unique_index ProductSchema.indexes coll d = None.
Proof. reflexivity. Qed.

(* ================================================================== *)
(** ** The cast of an id text *)

Lemma zeros_to_nat k s n :
  ObjectId.to_nat s = Some n -> ObjectId.to_nat (ObjectId.zeros k s) = Some n.
Proof.
  intros H. induction k as [|k IH]; cbn [ObjectId.zeros]; [exact H|].
  unfold ObjectId.to_nat in *. cbn [NilEmpty.uint_of_string].
  destruct (NilEmpty.uint_of_string (ObjectId.zeros k s)) as [d|];
    [|discriminate].
  cbn in IH |- *. exact IH.
Qed.

(** The number of an issued id is read back from its text. *)
Lemma to_nat_of_nat n : ObjectId.to_nat (ObjectId.of_nat n) = Some n.
Proof.
  unfold ObjectId.of_nat. apply zeros_to_nat.
  unfold ObjectId.to_nat.
  rewrite NilEmpty.usu. cbn [option_map].
  now rewrite DecimalNat.Unsigned.of_to.
Qed.

Lemma issued_text_fresh k : ObjectId.issued_text (Product.fresh_id k) = true.
Proof.
  unfold ObjectId.issued_text, Product.fresh_id.
  rewrite to_nat_of_nat. apply String.eqb_refl.
Qed.



Lemma casts_found id coll d :
  find (Product.by_id id) coll = Some d -> Product.casts coll id = true.
Proof.
  intros Hf. unfold Product.casts. rewrite !orb_true_iff. right.
  apply existsb_exists. exists d. now apply find_some in Hf.
Qed.


Lemma casts_fresh coll k : Product.casts coll (Product.fresh_id k) = true.
Proof.
  unfold Product.casts. rewrite issued_text_fresh. now rewrite orb_true_r.
Qed.


(** In a collection whose ids are texts of ObjectIds of 24 digits, the
    cast depends on the form of the text alone. *)
Lemma casts_by_form coll id :
  Forall (fun d => ObjectId.well_formed (p_id d) = true) coll ->
  ObjectId.issued_text id = false ->
  Product.casts coll id = ObjectId.well_formed id.
Proof.
  intros Hall Hi. unfold Product.casts. rewrite Hi, orb_false_r.
  destruct (ObjectId.well_formed id) eqn:Hw; [reflexivity|]. cbn.
  destruct (existsb (Product.by_id id) coll) eqn:E; [|reflexivity].
  apply existsb_exists in E as (d & Hin & Hd).
  apply String.eqb_eq in Hd. rewrite Forall_forall in Hall.
  specialize (Hall d Hin). congruence.
Qed.

(** The text of a failed cast is not the not-found text. *)
Lemma cast_error_text id fallback :
  message_or (Product.CastError id) fallback
  <> "Product not found".
Proof. cbn. discriminate. Qed.

(* ================================================================== *)
(** ** Creation *)

Lemma create_quiet input w :
  quiet w ->
  ProductSchema.document_errors (in_name input) (in_description input)
    (in_price input) (in_stock input) (in_category input)
    (in_images input) = [] ->
  let w1 := after_call (EvCreate input) w in
  let d := Product.new_doc w1 input in
  Product.create input w
  = (Ret d,
     {| db := (db w ++ [d])%list; nextId := S (nextId w); now := now w + 1;
        log := log w1; faults := faults w1; ties := ties w1 |}).
Proof.
  intros Hq Hv. unfold Product.create, bind.
  rewrite (call_quiet _ _ Hq), Hv. cbn beta iota.
  rewrite no_unique_index. reflexivity.
Qed.

(** Whatever the validator, a form it accepts with a payload the schema
    accepts is stored, however many documents already carry its name. *)
Lemma createProduct_quiet {V : ValidationModule} fd input w :
  quiet w ->
  validateProduct (createRawData fd) = ParseOk input ->
  ProductSchema.document_errors (in_name input) (in_description input)
    (in_price input) (in_stock input) (in_category input)
    (in_images input) = [] ->
  exists d w',
    createProduct fd w = (Ret (ok (DataProduct d)), w') /\
    quiet w' /\
    db w' = (db w ++ [d])%list /\
    p_name d = JsString.trim (in_name input).
Proof.
  intros Hq Hv Hs.
  unfold createProduct, try_catch, createProduct_try, bind, dbConnect.
  rewrite (call_quiet _ _ Hq), Hv.
  rewrite create_quiet by auto with world. cbn zeta.
  set (w1 := after_call _ (after_call _ w)).
  set (w2 := Build_World _ _ _ _ _ _).
  assert (Hq2 : quiet w2)
    by (apply (quiet_same_faults w1); [reflexivity | subst w1; auto with world]).
  unfold revalidatePath. rewrite (call_quiet _ _ Hq2). cbn.
  eexists _, _. repeat split. now apply quiet_after_call.
Qed.

(** C1 (defect in the code).  The claim asks that a second [create] with
    a name already stored be answered with the duplicate-name error.  The
    schema declares no unique index, so for every valid payload the
    second call stores a second product of the same name and answers
    success, as the first did. *)
Theorem C1_second_create_with_same_name_succeeds
    {V : ValidationModule} (fd : FormData) (input : ProductInput) (w : World) :
  quiet w ->
  validateProduct (createRawData fd) = ParseOk input ->
  ProductSchema.document_errors (in_name input) (in_description input)
    (in_price input) (in_stock input) (in_category input)
    (in_images input) = [] ->
  exists d1 w1 d2 w2,
    createProduct fd w = (Ret (ok (DataProduct d1)), w1) /\
    createProduct fd w1 = (Ret (ok (DataProduct d2)), w2) /\
    p_name d1 = p_name d2 /\
    db w2 = (db w ++ [d1; d2])%list.
Proof.
  intros Hq Hv Hs.
  destruct (createProduct_quiet fd input w Hq Hv Hs)
    as (d1 & w1 & Hrun1 & Hq1 & Hdb1 & Hn1).
  destruct (createProduct_quiet fd input w1 Hq1 Hv Hs)
    as (d2 & w2 & Hrun2 & _ & Hdb2 & Hn2).
  exists d1, w1, d2, w2.
  repeat split; try assumption.
  - congruence.
  - rewrite Hdb2, Hdb1, <- app_assoc. reflexivity.
Qed.

(* ================================================================== *)
(** ** Validation failures *)

Lemma added_two w ev1 ev2 w' :
  log w' = ((log w ++ [ev1]) ++ [ev2])%list -> added w w' [ev1; ev2].
Proof. unfold added. intros ->. now rewrite <- app_assoc. Qed.

Ltac connect_cases w :=
  unfold try_catch, bind, dbConnect, call;
  destruct (hd None (faults w)) as [e|] eqn:Hconnect.

(** A form the validator rejects: the action answers a failure, and the
    only collaborator it has called is [dbConnect]. *)
Lemma createProduct_invalid {V : ValidationModule} fd err w :
  validateProduct (createRawData fd) = ParseErr err ->
  exists r w' evs,
    createProduct fd w = (Ret r, w') /\
    success r = false /\ db w' = db w /\ added w w' evs /\
    no_store_call evs = true /\ revalidated evs = [] /\
    (hd None (faults w) = None ->
     r = validation_failed (formatValidationErrors err) /\ evs = [EvConnect]).
Proof.
  intros Hv. unfold createProduct, createProduct_try, createProduct_catch.
  connect_cases w.
  - unfold console_error. destruct (is_duplicate_key e); cbn;
      eexists _, _, [EvConnect; EvConsoleError _];
      (repeat split; [now apply added_two | discriminate ..]).
  - rewrite Hv. cbn. eexists _, _, [EvConnect]. now repeat split.
Qed.

Lemma updateProduct_invalid {V : ValidationModule} id fd err w :
  validateUpdateProduct (updateRawData fd) = ParseErr err ->
  exists r w' evs,
    updateProduct id fd w = (Ret r, w') /\
    success r = false /\ db w' = db w /\ added w w' evs /\
    no_store_call evs = true /\ revalidated evs = [] /\
    (hd None (faults w) = None ->
     r = validation_failed (formatValidationErrors err) /\ evs = [EvConnect]).
Proof.
  intros Hv. unfold updateProduct, updateProduct_try, updateProduct_catch.
  connect_cases w.
  - unfold console_error. cbn.
    eexists _, _, [EvConnect; EvConsoleError _].
    repeat split; [now apply added_two | discriminate ..].
  - rewrite Hv. cbn. eexists _, _, [EvConnect]. now repeat split.
Qed.

(** C6.  A create or update input that fails validation is answered with
    a failure, no store call is made and no path is invalidated; once
    connectivity is established ([dbConnect] does not fail) the answer
    has [success] false, no data, the error text ['Validation failed']
    and the formatted field errors as [errors], and [dbConnect] is the
    only collaborator called. *)
Theorem C6_validation_failure_touches_nothing
    {V : ValidationModule} (id : string) (fd : FormData) (w : World) :
  (forall err,
      validateProduct (createRawData fd) = ParseErr err ->
      exists r w' evs,
        createProduct fd w = (Ret r, w') /\
        success r = false /\ db w' = db w /\ added w w' evs /\
        no_store_call evs = true /\ revalidated evs = [] /\
        (hd None (faults w) = None ->
         data r = None /\
         error r = Some "Validation failed" /\
         errors r = Some (formatValidationErrors err) /\
         evs = [EvConnect]))
  /\
  (forall err,
      validateUpdateProduct (updateRawData fd) = ParseErr err ->
      exists r w' evs,
        updateProduct id fd w = (Ret r, w') /\
        success r = false /\ db w' = db w /\ added w w' evs /\
        no_store_call evs = true /\ revalidated evs = [] /\
        (hd None (faults w) = None ->
         data r = None /\
         error r = Some "Validation failed" /\
         errors r = Some (formatValidationErrors err) /\
         evs = [EvConnect])).
Proof.
  split; intros err Hv.
  - destruct (createProduct_invalid fd err w Hv)
      as (r & w' & evs & Hrun & Hs & Hdb & Hadd & Hns & Hrev & Hr).
    exists r, w', evs. repeat (split; [assumption|]).
    intros Hc. destruct (Hr Hc) as [-> ->]. repeat split.
  - destruct (updateProduct_invalid id fd err w Hv)
      as (r & w' & evs & Hrun & Hs & Hdb & Hadd & Hns & Hrev & Hr).
    exists r, w', evs. repeat (split; [assumption|]).
    intros Hc. destruct (Hr Hc) as [-> ->]. repeat split.
Qed.

(* ================================================================== *)
(** ** Coercion of the numeric fields *)

Section NumericCoercion.

Import SpecValidation.

Lemma price_NaN_rejected raw :
  raw_price raw = JNaN ->
  exists errs,
    validateCreate raw = ParseErr errs /\
    In {| field := "price"; message := rule_price |} errs.
Proof.
  intros H. unfold validateCreate. rewrite H. cbn [check_price].
  destruct (check_text 3 100 _), (check_text 1 1000 _), (check_stock _),
    (check_category _), (check_images _);
    eexists; (split; [reflexivity | cbn; intuition auto]).
Qed.

Lemma stock_NaN_rejected raw :
  raw_stock raw = JNaN ->
  exists errs,
    validateCreate raw = ParseErr errs /\
    In {| field := "stock"; message := rule_stock |} errs.
Proof.
  intros H. unfold validateCreate. rewrite H. cbn [check_stock].
  destruct (check_text 3 100 _), (check_text 1 1000 _), (check_price _),
    (check_category _), (check_images _);
    eexists; (split; [reflexivity | cbn; intuition auto]).
Qed.

(** C2 (as amended).  A numeric field of a create input that is
    supplied but does not read as a number ([Number] gives [NaN]) makes
    validation fail with an error for that field: the action answers
    the validation failure and stores nothing.  An absent [stock] is
    coerced to [0], the default of the field. *)
Theorem C2_non_numeric_field_is_a_validation_error (fd : FormData) :
  (Form.Number (Form.get fd "price") = JNaN ->
   exists errs,
     validateCreate (createRawData fd) = ParseErr errs /\
     In {| field := "price"; message := rule_price |} errs /\
     forall w, hd None (faults w) = None ->
       createProduct (V := module) fd w
       = (Ret (validation_failed errs), after_call EvConnect w))
  /\
  (Form.Number (Form.get fd "stock") = JNaN ->
   exists errs,
     validateCreate (createRawData fd) = ParseErr errs /\
     In {| field := "stock"; message := rule_stock |} errs /\
     forall w, hd None (faults w) = None ->
       createProduct (V := module) fd w
       = (Ret (validation_failed errs), after_call EvConnect w))
  /\
  (Form.get fd "stock" = None ->
   raw_stock (createRawData fd) = JFin 0%Q /\
   check_stock (raw_stock (createRawData fd)) = Some (JFin 0%Q)).
Proof.
  assert (Hact : forall errs,
    validateCreate (createRawData fd) = ParseErr errs ->
    forall w, hd None (faults w) = None ->
      createProduct (V := module) fd w
      = (Ret (validation_failed errs), after_call EvConnect w)).
  { intros errs Hv w Hc.
    unfold createProduct, createProduct_try, try_catch, bind, dbConnect, call.
    rewrite Hc. cbn [validateProduct module]. rewrite Hv. reflexivity. }
  split; [|split].
  - intros H. destruct (price_NaN_rejected (createRawData fd) H) as (errs & Hv & Hin).
    exists errs. auto.
  - intros H. destruct (stock_NaN_rejected (createRawData fd) H) as (errs & Hv & Hin).
    exists errs. auto.
  - intros H. cbn. rewrite H. split; reflexivity.
Qed.

(** C2 (as stated) fails: a form without [stock] is accepted and stored
    with stock [0], and so is a form with neither [price] nor [stock],
    with both fields at [0]. *)
Lemma C2_absent_numbers_accepted :
  (Form.get Sample.form_no_stock "stock" = None /\
   exists d w',
     createProduct (V := module) Sample.form_no_stock Sample.world0
     = (Ret (ok (DataProduct d)), w') /\
     p_stock d = JFin 0%Q /\ db w' = [d])
  /\
  (Form.get Sample.form_no_numbers "price" = None /\
   Form.get Sample.form_no_numbers "stock" = None /\
   exists d w',
     createProduct (V := module) Sample.form_no_numbers Sample.world0
     = (Ret (ok (DataProduct d)), w') /\
     p_price d = JFin 0%Q /\ p_stock d = JFin 0%Q /\ db w' = [d]).
Proof.
  split.
  - split; [reflexivity|].
    do 2 eexists. split; [vm_compute; reflexivity|]. repeat split.
  - split; [reflexivity|]. split; [reflexivity|].
    do 2 eexists. split; [vm_compute; reflexivity|]. repeat split.
Qed.

Lemma C2_witness :
  exists errs,
    validateCreate (createRawData (Sample.form "Wireless Mouse" "abc"))
    = ParseErr errs /\
    In {| field := "price"; message := rule_price |} errs /\
    forall w, hd None (faults w) = None ->
      createProduct (V := module) (Sample.form "Wireless Mouse" "abc") w
      = (Ret (validation_failed errs), after_call EvConnect w).
Proof.
  apply (C2_non_numeric_field_is_a_validation_error
           (Sample.form "Wireless Mouse" "abc")).
  reflexivity.
Defined.

End NumericCoercion.

(* ================================================================== *)
(** ** Partial updates *)

Section PartialUpdate.

Import SpecValidation.

Lemma supplied_absent {A B} (check : A -> option B) v r :
  supplied check v = Some r -> v = None -> r = None.
Proof. intros H ->. cbn in H. congruence. Qed.

(** The validator model adds no field to its input. *)
Lemma validateUpdate_frame raw u :
  validateUpdate raw = ParseOk u ->
  (upd_name raw = None -> set_name u = None) /\
  (upd_description raw = None -> set_description u = None) /\
  (upd_price raw = None -> set_price u = None) /\
  (upd_stock raw = None -> set_stock u = None) /\
  (upd_category raw = None -> set_category u = None) /\
  (upd_images raw = None -> set_images u = None) /\
  (upd_featured raw = None -> set_featured u = None).
Proof.
  unfold validateUpdate.
  destruct (supplied _ (upd_name raw)) eqn:En; [|discriminate].
  destruct (supplied _ (upd_description raw)) eqn:Ed; [|discriminate].
  destruct (supplied _ (upd_price raw)) eqn:Ep; [|discriminate].
  destruct (supplied _ (upd_stock raw)) eqn:Es; [|discriminate].
  destruct (supplied _ (upd_category raw)) eqn:Ec; [|discriminate].
  destruct (supplied _ (upd_images raw)) eqn:Ei; [|discriminate].
  intros H. injection H as <-. cbn.
  repeat split; eauto using supplied_absent.
Qed.

Lemma replace_first_images id t u l d :
  set_images u = None ->
  find (Product.by_id id) l = Some d ->
  map p_images (Product.replace_first id (Product.apply_update t u d) l)
  = map p_images l.
Proof.
  intros Hu. induction l as [|x l IH]; cbn; [discriminate|].
  destruct (Product.by_id id x).
  - intros [= ->]. cbn. now rewrite Hu.
  - intros H. cbn. now rewrite IH.
Qed.

Lemma images_absent_when_all_empty fd :
  filter Form.not_empty (Form.getAll fd "images") = [] ->
  upd_images (updateRawData fd) = None.
Proof. cbn. now intros ->. Qed.

Lemma has_false_get fd k : Form.has fd k = false -> Form.get fd k = None.
Proof.
  unfold Form.has, Form.get, Form.getAll.
  induction fd as [|e fd IH]; cbn; [reflexivity|].
  destruct (String.eqb (fst e) k); cbn; [discriminate | exact IH].
Qed.

(** An update whose [images] entries are all empty leaves every stored
    images list as it is, whatever else happens. *)
Lemma updateProduct_keeps_images id fd w :
  filter Form.not_empty (Form.getAll fd "images") = [] ->
  map p_images (db (snd (updateProduct (V := module) id fd w)))
  = map p_images (db w).
Proof.
  intros Hempty.
  unfold updateProduct, updateProduct_try, updateProduct_catch, console_error.
  connect_cases w; [reflexivity|].
  cbn [validateUpdateProduct module].
  destruct (validateUpdate (updateRawData fd)) as [u|err] eqn:Hv;
    [|reflexivity].
  assert (Hu : set_images u = None).
  { apply (validateUpdate_frame _ _ Hv).
    now apply images_absent_when_all_empty. }
  unfold Product.findByIdAndUpdate, revalidatePath, bind, call.
  cbn [faults after_call with_faults with_log with_db db].
  destruct (hd None (tl (faults w))); [reflexivity|].
  cbn [faults after_call with_faults with_log with_db db].
  destruct (Product.casts (db w) id); [|reflexivity].
  destruct (ProductSchema.update_errors u); [|reflexivity].
  cbn [faults after_call with_faults with_log with_db db].
  destruct (find (Product.by_id id) (db w)) as [d|] eqn:Hf; [|reflexivity].
  cbn [faults after_call with_faults with_log with_db db].
  destruct (hd None (tl (tl (faults w))));
    [cbn; now apply replace_first_images|].
  cbn [faults after_call with_faults with_log with_db db].
  destruct (hd None (tl (tl (tl (faults w)))));
    cbn; now apply replace_first_images.
Qed.

(** C3.  The validated update payload holds only fields present in the
    input; when every [images] entry supplied is the empty string the
    payload has no [images] field, and the update leaves every stored
    images list unchanged. *)
Theorem C3_update_payload_has_only_supplied_fields
    (fd : FormData) (u : UpdateProductInput) :
  validateUpdate (updateRawData fd) = ParseOk u ->
  (set_name u <> None -> Form.has fd "name" = true) /\
  (set_description u <> None -> Form.has fd "description" = true) /\
  (set_price u <> None -> Form.has fd "price" = true) /\
  (set_stock u <> None -> Form.has fd "stock" = true) /\
  (set_category u <> None -> Form.has fd "category" = true) /\
  (set_featured u <> None -> Form.has fd "featured" = true) /\
  (set_images u <> None ->
   exists img, In img (Form.getAll fd "images") /\
               Form.not_empty img = true) /\
  (filter Form.not_empty (Form.getAll fd "images") = [] ->
   set_images u = None /\
   forall id w,
     map p_images (db (snd (updateProduct (V := module) id fd w)))
     = map p_images (db w)).
Proof.
  intros Hv.
  destruct (validateUpdate_frame _ _ Hv)
    as (Hn & Hd & Hp & Hs & Hc & Hi & Hf).
  assert (Hkey : forall k, Form.has fd k <> true -> Form.has fd k = false)
    by (intros k; destruct (Form.has fd k); congruence).
  repeat split.
  - intros H. destruct (Form.has fd "name") eqn:E; [reflexivity|].
    exfalso. apply H, Hn. cbn. now rewrite E.
  - intros H. destruct (Form.has fd "description") eqn:E; [reflexivity|].
    exfalso. apply H, Hd. cbn. now rewrite E.
  - intros H. destruct (Form.has fd "price") eqn:E; [reflexivity|].
    exfalso. apply H, Hp. cbn. now rewrite E.
  - intros H. destruct (Form.has fd "stock") eqn:E; [reflexivity|].
    exfalso. apply H, Hs. cbn. now rewrite E.
  - intros H. destruct (Form.has fd "category") eqn:E; [reflexivity|].
    exfalso. apply H, Hc. cbn. now rewrite E.
  - intros H. destruct (Form.has fd "featured") eqn:E; [reflexivity|].
    exfalso. apply H, Hf. cbn. now rewrite E.
  - intros H.
    destruct (filter Form.not_empty (Form.getAll fd "images"))
      as [|img rest] eqn:E.
    + exfalso. apply H, Hi. now apply images_absent_when_all_empty.
    + exists img.
      assert (Hin : In img (filter Form.not_empty (Form.getAll fd "images")))
        by (rewrite E; now left).
      now apply filter_In in Hin.
  - apply Hi. now apply images_absent_when_all_empty.
  - intros id w. now apply updateProduct_keeps_images.
Qed.

End PartialUpdate.

(* ================================================================== *)
(** ** Deletion *)

Lemma quiet_hd w : quiet w -> hd None (faults w) = None.
Proof.
  unfold quiet. destruct (faults w); cbn; [reflexivity|].
  now inversion 1.
Qed.

Lemma quiet_tl w : quiet w -> Forall (fun f => f = None) (tl (faults w)).
Proof.
  unfold quiet. destruct (faults w); cbn; [constructor|].
  now inversion 1.
Qed.

Lemma quiet_hd_tl w : quiet w -> hd None (tl (faults w)) = None.
Proof.
  intros H. apply quiet_tl in H.
  destruct (tl (faults w)); cbn; [reflexivity|]. now inversion H.
Qed.

Ltac solve_added := unfold added; cbn; rewrite <- ?app_assoc; reflexivity.

Lemma deleteProduct_missing id w :
  find (Product.by_id id) (db w) = None ->
  exists r w' evs,
    deleteProduct id w = (Ret r, w') /\
    success r = false /\ db w' = db w /\ added w w' evs /\
    revalidated evs = [] /\
    (quiet w ->
     Product.casts (db w) id = true ->
     r = failure "Product not found" /\
     evs = [EvConnect; EvFindByIdAndDelete id]) /\
    (quiet w ->
     Product.casts (db w) id = false ->
     r = failure (message_or (Product.CastError id)
                    "Failed to delete product. Please try again.") /\
     evs = [EvConnect; EvFindByIdAndDelete id;
            EvConsoleError "Error deleting product:"]).
Proof.
  intros Hf.
  unfold deleteProduct, deleteProduct_try, deleteProduct_catch, console_error.
  connect_cases w.
  { cbn. eexists _, _, [EvConnect; EvConsoleError _].
    repeat split; try solve_added;
      match goal with H : quiet _ |- _ => apply quiet_hd in H; congruence end. }
  unfold Product.findByIdAndDelete, bind, call.
  cbn [faults after_call with_faults with_log with_db db].
  destruct (hd None (tl (faults w))) as [e|] eqn:Hcall.
  { cbn. eexists _, _, [EvConnect; EvFindByIdAndDelete id; EvConsoleError _].
    repeat split; try solve_added;
      match goal with H : quiet _ |- _ => apply quiet_hd_tl in H; congruence end. }
  cbn [faults after_call with_faults with_log with_db db]. rewrite Hf.
  destruct (Product.casts (db w) id) eqn:Hc.
  - eexists _, _, [EvConnect; EvFindByIdAndDelete id].
    split; [reflexivity|]. split; [reflexivity|]. split; [reflexivity|].
    split; [solve_added|]. split; [reflexivity|].
    split; [now intros _ _ | intros _ [=]].
  - eexists _, _, [EvConnect; EvFindByIdAndDelete id; EvConsoleError _].
    split; [reflexivity|]. split; [reflexivity|]. split; [reflexivity|].
    split; [solve_added|]. split; [reflexivity|].
    split; [intros _ [=] | now intros _ _].
Qed.





(* ================================================================== *)
(** ** The featured flag *)

Lemma find_by_id_id id l d :
  find (Product.by_id id) l = Some d -> p_id d = id.
Proof.
  intros H. apply find_some in H as [_ H].
  now apply String.eqb_eq in H.
Qed.

Lemma find_replace_first id d' l d :
  find (Product.by_id id) l = Some d ->
  p_id d' = id ->
  find (Product.by_id id) (Product.replace_first id d' l) = Some d'.
Proof.
  intros Hf Hid. induction l as [|x l IH]; cbn in *; [discriminate|].
  destruct (Product.by_id id x) eqn:E.
  - cbn. unfold Product.by_id at 1. rewrite Hid, String.eqb_refl. reflexivity.
  - cbn. rewrite E. auto.
Qed.

Lemma toggleFeaturedStatus_found id d w :
  find (Product.by_id id) (db w) = Some d ->
  schema_valid d ->
  quiet w ->
  exists w',
    toggleFeaturedStatus id w
    = (Ret (ok (DataProduct (toggled_at (now w) d))), w') /\
    quiet w' /\
    db w' = Product.replace_first id (toggled_at (now w) d) (db w) /\
    find (Product.by_id id) (db w') = Some (toggled_at (now w) d) /\
    revalidated
      (skipn (List.length (log w)) (log w'))
    = [EvRevalidatePath "/dashboard/products";
       EvRevalidatePath ("/dashboard/products/" ++ id)].
Proof.
  intros Hf Hv Hq. pose proof (find_by_id_id _ _ _ Hf) as Hid. subst id.
  unfold toggleFeaturedStatus, toggleFeaturedStatus_try, try_catch, bind,
    dbConnect.
  rewrite (call_quiet _ _ Hq).
  unfold Product.findById, bind, get_db, ret.
  rewrite call_quiet by auto with world.
  rewrite !db_after_call, (casts_found _ _ _ Hf), Hf.
  unfold Product.save, bind. cbn [toggle p_id p_name p_description p_price
    p_stock p_category p_images p_featured p_createdAt p_updatedAt].
  rewrite call_quiet by auto with world.
  unfold schema_valid in Hv. rewrite Hv. cbn beta iota.
  unfold revalidatePath.
  rewrite call_quiet by auto 6 with world.
  rewrite call_quiet by auto 7 with world.
  eexists. split; [reflexivity|].
  split; [auto 8 with world|].
  split; [reflexivity|].
  split.
  - cbn. apply (find_replace_first _ _ _ d); [exact Hf | reflexivity].
  - cbn. rewrite <- !app_assoc. cbn.
    rewrite skipn_app, skipn_all, Nat.sub_diag. reflexivity.
Qed.





(* ================================================================== *)
(** ** Failures are returned, never raised *)




(* ================================================================== *)
(** ** Listing: sorting, paging, counting *)












(** The run of [getAllProducts] when no collaborator fails, the filter is
    one the store understands, and the skip is not negative: the page is
    cut from the matching documents, newest first, in the order the
    store gives to documents of equal creation time for this query. *)
Lemma getAllProducts_quiet params w :
  quiet w ->
  let p := default params no_params in
  let pg := default (page p) 1 in
  let lim := default (limit p) 10 in
  let q := build_query (default (search p) "") (default (category p) "") in
  let found := filter (matches q) (db w) in
  query_supported q = true ->
  0 <= (pg - 1) * lim ->
  exists w',
    getAllProducts params w
    = (Ret (ok (DataList
                  (skip_limit ((pg - 1) * lim) lim
                     (sort_by (next_tiebreak w) found))
                  pg lim (Z.of_nat (List.length found))
                  (JsNumber.ceil
                     (JsNumber.div (Z.of_nat (List.length found)) lim)))),
       w') /\
    db w' = db w /\ quiet w' /\ ties w' = tl (ties w).
Proof.
  intros Hq p pg lim q found Hsup Hskip.
  unfold getAllProducts, getAllProducts_try, try_catch, bind, dbConnect.
  rewrite (call_quiet _ _ Hq).
  fold p. fold pg. fold lim. fold q.
  unfold promise_all2, Product.find_sorted, Product.countDocuments,
    Product.check_query, bind, get_db, ret.
  rewrite call_quiet by auto with world. rewrite Hsup.
  destruct ((pg - 1) * lim <? 0) eqn:E; [lia|].
  rewrite call_quiet by auto with world.
  eexists. split; [reflexivity|]. split; [reflexivity|].
  split; [auto 8 with world | reflexivity].
Qed.





Lemma filter_all {A} (f : A -> bool) l :
  (forall x, f x = true) -> filter f l = l.
Proof.
  intros H. induction l as [|x l IH]; cbn; [reflexivity|].
  now rewrite H, IH.
Qed.

(** C10.  An empty-string [search] or [category] is treated as an absent
    one: the run is the same, no clause is added to the query, every
    entity matches the query built from two empty strings, and [total]
    then counts the whole collection. *)
Theorem C10_empty_string_filter_is_no_filter
    (srch cat : option string) (pg lim : option Z) (w : World) :
  getAllProducts
    (Some {| search := Some ""; category := cat; page := pg; limit := lim |}) w
  = getAllProducts
      (Some {| search := None; category := cat; page := pg; limit := lim |}) w
  /\
  getAllProducts
    (Some {| search := srch; category := Some ""; page := pg; limit := lim |}) w
  = getAllProducts
      (Some {| search := srch; category := None; page := pg; limit := lim |}) w
  /\
  (forall c, q_or (build_query "" c) = None) /\
  (forall s, q_category (build_query s "") = None) /\
  build_query "" "" = empty_query /\
  (forall d, matches (build_query "" "") d = true) /\
  (quiet w ->
   0 <= (default pg 1 - 1) * default lim 10 ->
   exists items pages w',
     getAllProducts
       (Some {| search := Some ""; category := Some "";
                page := pg; limit := lim |}) w
     = (Ret (ok (DataList items (default pg 1) (default lim 10)
                          (Z.of_nat (List.length (db w))) pages)), w')).
Proof.
  repeat split.
  intros Hq Hskip.
  destruct (getAllProducts_quiet
              (Some {| search := Some ""; category := Some "";
                       page := pg; limit := lim |}) w Hq eq_refl Hskip)
    as (w' & Hrun & _).
  cbn [default search category page limit] in Hrun.
  rewrite (filter_all (matches (build_query "" ""))) in Hrun
    by reflexivity.
  eauto.
Qed.

(* ================================================================== *)
(** ** Listing: the search filter *)

Section SearchFilter.

Import JsString.

Lemma prefixb_spec p l :
  prefixb p l = true <-> exists post, l = (p ++ post)%list.
Proof.
  revert l. induction p as [|a p IH]; intros l; cbn.
  - split; [intros _; now exists l | reflexivity].
  - destruct l as [|b l]; cbn.
    + split; [discriminate | intros [post H]; discriminate].
    + rewrite andb_true_iff, Ascii.eqb_eq, IH. split.
      * intros [-> [post ->]]. now exists post.
      * intros [post [= -> ->]]. split; [reflexivity | now exists post].
Qed.

Lemma infixb_spec p l :
  infixb p l = true <-> exists pre post, l = (pre ++ p ++ post)%list.
Proof.
  induction l as [|b l IH].
  - cbn [infixb]. rewrite orb_false_r, prefixb_spec. split.
    + intros [post H]. now exists [], post.
    + intros (pre & post & H). destruct pre; [now exists post|discriminate].
  - cbn [infixb]. rewrite orb_true_iff, prefixb_spec, IH. split.
    + intros [[post H]|(pre & post & H)].
      * now exists [], post.
      * exists (b :: pre), post. cbn. now rewrite H.
    + intros (pre & post & H). destruct pre as [|c pre]; cbn in H.
      * left. now exists post.
      * right. injection H as _ H. now exists pre, post.
Qed.

Lemma ci_substring_infixb needle hay :
  ci_substring needle hay
  <-> infixb (lower_chars (chars needle)) (lower_chars (chars hay)) = true.
Proof. unfold ci_substring. now rewrite infixb_spec. Qed.

Lemma compile_literal l :
  (forall c, In c l -> Regex.is_meta c = false) ->
  Regex.compile_chars l = Some (map Regex.Lit l).
Proof.
  induction l as [|c l IH]; cbn [Regex.compile_chars map]; intros H.
  - reflexivity.
  - rewrite IH by (intros x Hx; apply H; now right).
    assert (Hc : Regex.is_meta c = false) by (apply H; now left).
    rewrite Hc.
    destruct (Ascii.eqb c ".") eqn:E; [|reflexivity].
    apply Ascii.eqb_eq in E. subst c. discriminate Hc.
Qed.

Lemma match_here_literal p l :
  Regex.match_here true (map Regex.Lit p) l
  = prefixb (lower_chars p) (lower_chars l).
Proof.
  revert l. induction p as [|a p IH]; intros [|b l]; cbn; try reflexivity.
  now rewrite IH.
Qed.

Lemma search_literal p l :
  Regex.search true (map Regex.Lit p) l
  = infixb (lower_chars p) (lower_chars l).
Proof.
  induction l as [|b l IH]; cbn [Regex.search infixb lower_chars map].
  - now rewrite match_here_literal.
  - rewrite match_here_literal, IH. reflexivity.
Qed.

(** A pattern without special characters finds exactly the subjects
    that hold it as a substring, letter case apart. *)
Lemma clause_literal path srch d :
  (forall c, In c (chars srch) -> Regex.is_meta c = false) ->
  clause_matches
    {| rx_path := path; rx_regex := srch; rx_options := "i" |} d
  = Some (infixb (lower_chars (chars srch))
                 (lower_chars (chars (text_path path d)))).
Proof.
  intros H. unfold clause_matches, Regex.compile. cbn [rx_regex].
  rewrite compile_literal by exact H.
  unfold Regex.test. cbn [rx_options rx_path].
  change (Regex.ignore_case "i") with true.
  now rewrite search_literal.
Qed.

(** C5 (as amended).  For a non-empty search string made of ordinary
    characters (none of the pattern operators), an entity matches the
    search filter if and only if the search string is a
    case-insensitive substring of its name or of its description; a
    supplied category finds the entities whose category equals the
    supplied text with the white space at its two ends removed (the
    schema trims the path, and the filter value with it); the two
    filters combine conjunctively. *)
Theorem C5_literal_search_is_ci_substring
    (srch cat : string) (d : ProductDoc) :
  srch <> "" ->
  (forall c, In c (chars srch) -> Regex.is_meta c = false) ->
  matches (build_query srch cat) d = true
  <->
  (ci_substring srch (p_name d) \/ ci_substring srch (p_description d))
  /\ (cat = "" \/ p_category d = trim cat).
Proof.
  intros Hne Hlit.
  unfold matches, build_query, truthy. cbn [q_or q_category].
  apply String.eqb_neq in Hne. rewrite Hne. cbn [negb].
  unfold or_matches. cbn [existsb].
  rewrite !clause_literal by exact Hlit.
  change (text_path "name" d) with (p_name d).
  change (text_path "description" d) with (p_description d).
  rewrite andb_true_iff, orb_false_r, orb_true_iff,
    <- !ci_substring_infixb.
  destruct (String.eqb cat "") eqn:Ec; cbn [negb].
  - apply String.eqb_eq in Ec. tauto.
  - apply String.eqb_neq in Ec. rewrite String.eqb_eq. tauto.
Qed.

(** C5 (as stated) fails twice: the search text is a pattern, and [.]
    finds a product whose name and description hold no full stop; and
    the category is not compared by exact equality, a category text
    with spaces around it finds the products of the trimmed category. *)
Lemma C5_dot_is_not_a_substring_but_matches :
  (matches (build_query "." "") Sample.mouse = true /\
   ~ ci_substring "." (p_name Sample.mouse) /\
   ~ ci_substring "." (p_description Sample.mouse)) /\
  (matches (build_query "" " Electronics ") Sample.mouse = true /\
   p_category Sample.mouse <> " Electronics ").
Proof.
  split; split; try reflexivity.
  - split; rewrite ci_substring_infixb; vm_compute; discriminate.
  - discriminate.
Qed.

End SearchFilter.

(* ================================================================== *)
(** ** The theorems on sample data *)

Lemma quiet_world1 : quiet Sample.world1.
Proof. constructor. Defined.

Lemma quiet_world25 : quiet Sample.world25.
Proof. constructor. Defined.

Lemma C1_witness :
  exists d1 w1 d2 w2,
    createProduct (V := SpecValidation.module)
      (Sample.form "Wireless Mouse" "12.50") Sample.world0
    = (Ret (ok (DataProduct d1)), w1) /\
    createProduct (V := SpecValidation.module)
      (Sample.form "Wireless Mouse" "12.50") w1
    = (Ret (ok (DataProduct d2)), w2) /\
    p_name d1 = p_name d2 /\
    db w2 = (db Sample.world0 ++ [d1; d2])%list.
Proof.
  apply (C1_second_create_with_same_name_succeeds
           (V := SpecValidation.module)
           (Sample.form "Wireless Mouse" "12.50") Sample.valid_input
           Sample.world0).
  - constructor.
  - vm_compute. reflexivity.
  - vm_compute. reflexivity.
Defined.

Lemma C3_witness :
  map p_images
    (db (snd (updateProduct (V := SpecValidation.module) Sample.mouse_id
                Sample.update_form Sample.world1)))
  = [["a.png"; "b.png"]].
Proof.
  destruct (C3_update_payload_has_only_supplied_fields
              Sample.update_form Sample.update_payload eq_refl)
    as (_ & _ & _ & _ & _ & _ & _ & H).
  destruct (H eq_refl) as [_ Hkeep].
  rewrite Hkeep. reflexivity.
Defined.


Lemma C5_witness :
  matches (build_query "wireless" " Electronics ") Sample.mouse = true
  <->
  (ci_substring "wireless" (p_name Sample.mouse) \/
   ci_substring "wireless" (p_description Sample.mouse))
  /\ (" Electronics " = "" \/
      p_category Sample.mouse = JsString.trim " Electronics ").
Proof.
  apply C5_literal_search_is_ci_substring.
  - discriminate.
  - intros c Hc. cbn in Hc.
    repeat (destruct Hc as [<-|Hc]; [reflexivity|]). contradiction.
Defined.

Lemma C6_witness :
  fst (createProduct (V := SpecValidation.module)
         (Sample.form "Wireless Mouse" "abc") Sample.world1)
  = Ret {| success := false; data := None;
           error := Some "Validation failed";
           errors := Some [ {| field := "price";
                               message := SpecValidation.rule_price |} ] |}
  /\
  fst (updateProduct (V := SpecValidation.module) Sample.mouse_id
         (Sample.form "Wireless Mouse" "abc") Sample.world1)
  = Ret {| success := false; data := None;
           error := Some "Validation failed";
           errors := Some [ {| field := "price";
                               message := SpecValidation.rule_price |} ] |}.
Proof.
  destruct (C6_validation_failure_touches_nothing
              (V := SpecValidation.module) Sample.mouse_id
              (Sample.form "Wireless Mouse" "abc") Sample.world1)
    as [Hc Hu].
  destruct (Hc _ eq_refl) as (r & w' & evs & Hrun & Hs & _ & _ & _ & _ & Hr).
  destruct (Hu _ eq_refl)
    as (r2 & w2 & evs2 & Hrun2 & Hs2 & _ & _ & _ & _ & Hr2).
  destruct (Hr eq_refl) as (Hd & He & Hes & _).
  destruct (Hr2 eq_refl) as (Hd2 & He2 & Hes2 & _).
  rewrite Hrun, Hrun2. destruct r, r2. cbn in *. subst. split; reflexivity.
Defined.




Lemma C10_witness :
  exists items pages w',
    getAllProducts
      (Some {| search := Some ""; category := Some "";
               page := None; limit := None |}) Sample.world25
    = (Ret (ok (DataList items 1 10 25 pages)), w').
Proof.
  destruct (C10_empty_string_filter_is_no_filter None None None None
              Sample.world25)
    as (_ & _ & _ & _ & _ & _ & H).
  apply H; [exact quiet_world25 | cbn; lia].
Defined.

(* ================================================================== *)
(** ** What a run can do to the collection *)

(** Case analysis of a run: every collaborator call may fail or not, every
    test of the action may go either way. *)
Ltac run_cases :=
  repeat (cbn [faults after_call with_faults with_log with_db db log nextId now];
          match goal with
          | |- context [match hd None ?l with _ => _ end] =>
              destruct (hd None l)
          | |- context [match validateProduct ?r with _ => _ end] =>
              destruct (validateProduct r) eqn:?
          | |- context [match validateUpdateProduct ?r with _ => _ end] =>
              destruct (validateUpdateProduct r) eqn:?
          | |- context [match find ?f ?l with _ => _ end] =>
              destruct (find f l) eqn:?
          | |- context [match ProductSchema.document_errors ?a ?b ?c ?d ?e ?f with _ => _ end] =>
              destruct (ProductSchema.document_errors a b c d e f) eqn:?
          | |- context [match ProductSchema.update_errors ?u with _ => _ end] =>
              destruct (ProductSchema.update_errors u) eqn:?
          | |- context [violates_unique_index ProductSchema.indexes ?c ?d] =>
              rewrite (no_unique_index c d)
          | |- context [if ?b then _ else _] => destruct b eqn:?
          end).

Ltac unfold_actions :=
  unfold createProduct, createProduct_try, createProduct_catch,
    updateProduct, updateProduct_try, updateProduct_catch,
    deleteProduct, deleteProduct_try, deleteProduct_catch,
    getProductById, getProductById_try, getProductById_catch,
    getAllProducts, getAllProducts_try, getAllProducts_catch,
    toggleFeaturedStatus, toggleFeaturedStatus_try, toggleFeaturedStatus_catch,
    try_catch, bind, dbConnect, revalidatePath, call, console_error,
    promise_all2, Product.create, Product.findById, Product.findByIdAndDelete,
    Product.findByIdAndUpdate, Product.save, Product.find_sorted,
    Product.countDocuments, Product.check_query, bind, call, get_db, ret, throw.


Lemma createProduct_effect {V : ValidationModule} fd w :
  (db (snd (createProduct fd w)) = db w /\
   nextId (snd (createProduct fd w)) = nextId w)
  \/
  (exists input,
      validateProduct (createRawData fd) = ParseOk input /\
      ProductSchema.document_errors (in_name input) (in_description input)
        (in_price input) (in_stock input) (in_category input)
        (in_images input) = [] /\
      db (snd (createProduct fd w)) = (db w ++ [Product.new_doc w input])%list /\
      nextId (snd (createProduct fd w)) = S (nextId w)).
Proof.
  unfold_actions.
  run_cases; cbn; first [ left; split; reflexivity | right; eauto 10 ].
Qed.

Lemma updateProduct_effect {V : ValidationModule} id fd w :
  nextId (snd (updateProduct id fd w)) = nextId w /\
  (db (snd (updateProduct id fd w)) = db w
   \/
   exists u d,
     validateUpdateProduct (updateRawData fd) = ParseOk u /\
     ProductSchema.update_errors u = [] /\
     find (Product.by_id id) (db w) = Some d /\
     db (snd (updateProduct id fd w))
     = Product.replace_first id (Product.apply_update (now w) u d) (db w)).
Proof.
  unfold_actions.
  run_cases; cbn; (split; [reflexivity|]); first [ left; reflexivity | right; eauto 10 ].
Qed.

Lemma deleteProduct_effect id w :
  nextId (snd (deleteProduct id w)) = nextId w /\
  (db (snd (deleteProduct id w)) = db w
   \/
   exists d,
     find (Product.by_id id) (db w) = Some d /\
     db (snd (deleteProduct id w)) = Product.remove_first id (db w)).
Proof.
  unfold_actions.
  run_cases; cbn; (split; [reflexivity|]); first [ left; reflexivity | right; eauto 10 ].
Qed.

Lemma toggleFeaturedStatus_effect id w :
  nextId (snd (toggleFeaturedStatus id w)) = nextId w /\
  (db (snd (toggleFeaturedStatus id w)) = db w
   \/
   exists d,
     find (Product.by_id id) (db w) = Some d /\
     schema_valid d /\
     db (snd (toggleFeaturedStatus id w))
     = Product.replace_first id (toggled_at (now w) d) (db w)).
Proof.
  unfold_actions.
  run_cases; cbn; (split; [reflexivity|]); first [ left; reflexivity | right ].
  all: match goal with H : find _ _ = Some ?d |- _ =>
         exists d; pose proof (find_by_id_id _ _ _ H) as Hid; subst; repeat split; assumption end.
Qed.

Lemma readers_effect id params w :
  db (snd (getProductById id w)) = db w /\
  nextId (snd (getProductById id w)) = nextId w /\
  db (snd (getAllProducts params w)) = db w /\
  nextId (snd (getAllProducts params w)) = nextId w.
Proof.
  unfold_actions.
  repeat split; run_cases; reflexivity.
Qed.

(* ================================================================== *)
(** ** Lists of documents *)

Lemma fresh_id_inj a b : Product.fresh_id a = Product.fresh_id b -> a = b.
Proof.
  unfold Product.fresh_id. intros H.
  assert (E : Some a = Some b) by (rewrite <- !to_nat_of_nat; now rewrite H).
  now injection E.
Qed.

Lemma find_none_not_in id l :
  find (Product.by_id id) l = None <-> ~ In id (map p_id l).
Proof.
  induction l as [|x l IH]; cbn; [tauto|].
  unfold Product.by_id at 1. destruct (String.eqb (p_id x) id) eqn:E.
  - apply String.eqb_eq in E. split; [discriminate | tauto].
  - apply String.eqb_neq in E. rewrite IH. tauto.
Qed.

Lemma find_app_fresh id l d :
  find (Product.by_id id) l = None -> p_id d = id ->
  find (Product.by_id id) (l ++ [d]) = Some d.
Proof.
  intros Hn Hid. induction l as [|x l IH]; cbn in *.
  - unfold Product.by_id. now rewrite Hid, String.eqb_refl.
  - destruct (Product.by_id id x); [discriminate | auto].
Qed.

Lemma replace_first_ids id d' l d :
  find (Product.by_id id) l = Some d -> p_id d' = p_id d ->
  map p_id (Product.replace_first id d' l) = map p_id l.
Proof.
  intros Hf Hid. induction l as [|x l IH]; cbn in *; [reflexivity|].
  destruct (Product.by_id id x).
  - injection Hf as ->. cbn. now rewrite Hid.
  - cbn. now rewrite IH.
Qed.


Lemma replace_first_in id d' l x :
  In x (Product.replace_first id d' l) -> x = d' \/ In x l.
Proof.
  induction l as [|y l IH]; cbn; [tauto|].
  destruct (Product.by_id id y); cbn; intuition.
Qed.

Lemma replace_first_Forall (P : ProductDoc -> Prop) id d' l :
  Forall P l -> P d' -> Forall P (Product.replace_first id d' l).
Proof.
  intros Hl Hd. rewrite Forall_forall in *. intros x Hx.
  apply replace_first_in in Hx as [->|Hx]; auto.
Qed.

Lemma remove_first_in id l x :
  In x (Product.remove_first id l) -> In x l.
Proof.
  induction l as [|y l IH]; cbn; [tauto|].
  destruct (Product.by_id id y); cbn; intuition.
Qed.

Lemma remove_first_others id l :
  others id (Product.remove_first id l) = others id l.
Proof.
  unfold others. induction l as [|x l IH]; cbn; [reflexivity|].
  destruct (Product.by_id id x) eqn:E; cbn; [reflexivity|].
  now rewrite E, IH.
Qed.

Lemma remove_first_length id l d :
  find (Product.by_id id) l = Some d ->
  S (List.length (Product.remove_first id l)) = List.length l.
Proof.
  induction l as [|x l IH]; cbn; [discriminate|].
  destruct (Product.by_id id x); [reflexivity|].
  intros H. cbn. now rewrite IH.
Qed.

Lemma remove_first_NoDup id l :
  NoDup (map p_id l) -> NoDup (map p_id (Product.remove_first id l)).
Proof.
  induction l as [|x l IH]; cbn; intros H; [constructor|].
  inversion H as [|? ? Hn Hl]; subst.
  destruct (Product.by_id id x); [exact Hl|].
  cbn. constructor; [|auto].
  intros Hin. apply Hn. apply in_map_iff in Hin as (y & Hy & Hin).
  apply in_map_iff. exists y. split; [exact Hy|].
  eapply remove_first_in; eassumption.
Qed.

(** With distinct ids, removing the document of an id leaves none. *)
Lemma remove_first_gone id l :
  NoDup (map p_id l) ->
  find (Product.by_id id) (Product.remove_first id l) = None.
Proof.
  induction l as [|x l IH]; cbn; intros H; [reflexivity|].
  inversion H as [|? ? Hn Hl]; subst.
  destruct (Product.by_id id x) eqn:E.
  - apply find_none_not_in. apply String.eqb_eq in E. now rewrite <- E.
  - cbn. rewrite E. auto.
Qed.

(* ================================================================== *)
(** ** Reading one product *)

Lemma getProductById_quiet id w :
  quiet w ->
  Product.casts (db w) id = true ->
  exists w',
    getProductById id w
    = (Ret (match find (Product.by_id id) (db w) with
            | Some p => ok (DataProduct p)
            | None => failure "Product not found"
            end), w') /\
    quiet w' /\ db w' = db w /\ nextId w' = nextId w /\
    added w w' [EvConnect; EvFindById id].
Proof.
  intros Hq Hc.
  unfold getProductById, getProductById_try, try_catch, bind, dbConnect.
  rewrite (call_quiet _ _ Hq).
  unfold Product.findById, bind, get_db, ret.
  rewrite call_quiet by auto with world.
  rewrite !db_after_call, Hc.
  destruct (find (Product.by_id id) (db w));
    (eexists; split; [reflexivity|]; split; [auto with world|];
     split; [reflexivity|]; split; [reflexivity|]; solve_added).
Qed.

Lemma getProductById_cast_failure id w :
  quiet w ->
  Product.casts (db w) id = false ->
  exists w',
    getProductById id w
    = (Ret (failure (message_or (Product.CastError id)
                       "Failed to fetch product. Please try again.")), w') /\
    db w' = db w /\
    added w w' [EvConnect; EvFindById id;
                EvConsoleError "Error fetching product:"].
Proof.
  intros Hq Hc.
  unfold getProductById, getProductById_try, getProductById_catch, try_catch,
    bind, dbConnect, console_error.
  rewrite (call_quiet _ _ Hq).
  unfold Product.findById, bind, get_db, ret, throw.
  rewrite call_quiet by auto with world.
  rewrite !db_after_call, Hc.
  eexists. split; [reflexivity|]. split; [reflexivity|]. solve_added.
Qed.


(* ================================================================== *)
(** ** Ids *)

Lemma ids_issued_same w w' :
  db w' = db w -> nextId w' = nextId w -> ids_issued w -> ids_issued w'.
Proof. unfold ids_issued. now intros -> ->. Qed.

Lemma ids_issued_fresh w :
  ids_issued w ->
  find (Product.by_id (Product.fresh_id (nextId w))) (db w) = None.
Proof.
  intros [_ Hb]. apply find_none_not_in. intros Hin.
  apply in_map_iff in Hin as (d & Hd & Hin).
  destruct (Hb d Hin) as (k & Hk & Hid).
  rewrite Hid in Hd. apply fresh_id_inj in Hd. lia.
Qed.

Lemma ids_issued_insert w w' input :
  db w' = (db w ++ [Product.new_doc w input])%list ->
  nextId w' = S (nextId w) ->
  ids_issued w -> ids_issued w'.
Proof.
  intros Hdb Hn Hi. pose proof (ids_issued_fresh w Hi) as Hfresh.
  destruct Hi as [Hnd Hb]. unfold ids_issued. rewrite Hdb, Hn. split.
  - rewrite map_app. cbn [map].
    eapply Permutation_NoDup; [apply Permutation_cons_append|].
    constructor; [|exact Hnd]. now apply find_none_not_in.
  - intros d Hin. apply in_app_or in Hin as [Hin|[<-|[]]].
    + destruct (Hb d Hin) as (k & Hk & Hid). exists k. split; [lia|exact Hid].
    + exists (nextId w). split; [lia|reflexivity].
Qed.

Lemma ids_issued_replace w w' id d d' :
  find (Product.by_id id) (db w) = Some d ->
  p_id d' = p_id d ->
  db w' = Product.replace_first id d' (db w) ->
  nextId w' = nextId w ->
  ids_issued w -> ids_issued w'.
Proof.
  intros Hf Hid Hdb Hn [Hnd Hb]. unfold ids_issued. rewrite Hdb, Hn. split.
  - now rewrite (replace_first_ids id d' (db w) d).
  - intros x Hx. apply replace_first_in in Hx as [->|Hx]; [|auto].
    rewrite Hid. apply Hb. now apply find_some in Hf.
Qed.

Lemma ids_issued_remove w w' id :
  db w' = Product.remove_first id (db w) ->
  nextId w' = nextId w ->
  ids_issued w -> ids_issued w'.
Proof.
  intros Hdb Hn [Hnd Hb]. unfold ids_issued. rewrite Hdb, Hn. split.
  - now apply remove_first_NoDup.
  - intros x Hx. apply Hb. eapply remove_first_in; eassumption.
Qed.

(** X4.  Every action, whatever its input and whatever fails, keeps the
    ids of the collection pairwise distinct and issued by the store. *)
Theorem X4_actions_keep_ids_distinct
    {V : ValidationModule} (fd : FormData) (id : string)
    (params : option ListParams) (w : World) :
  ids_issued w ->
  ids_issued (snd (createProduct fd w)) /\
  ids_issued (snd (updateProduct id fd w)) /\
  ids_issued (snd (deleteProduct id w)) /\
  ids_issued (snd (getProductById id w)) /\
  ids_issued (snd (getAllProducts params w)) /\
  ids_issued (snd (toggleFeaturedStatus id w)).
Proof.
  intros Hi.
  destruct (readers_effect id params w) as (Hg1 & Hg2 & Hl1 & Hl2).
  refine (conj _ (conj _ (conj _ (conj _ (conj _ _))))).
  - destruct (createProduct_effect fd w)
      as [[Hdb Hn]|(input & _ & _ & Hdb & Hn)].
    + exact (ids_issued_same _ _ Hdb Hn Hi).
    + exact (ids_issued_insert _ _ _ Hdb Hn Hi).
  - destruct (updateProduct_effect id fd w)
      as [Hn [Hdb|(u & d & _ & _ & Hf & Hdb)]].
    + exact (ids_issued_same _ _ Hdb Hn Hi).
    + exact (ids_issued_replace _ _ id d (Product.apply_update (now w) u d)
               Hf eq_refl Hdb Hn Hi).
  - destruct (deleteProduct_effect id w) as [Hn [Hdb|(d & _ & Hdb)]].
    + exact (ids_issued_same _ _ Hdb Hn Hi).
    + exact (ids_issued_remove _ _ _ Hdb Hn Hi).
  - exact (ids_issued_same _ _ Hg1 Hg2 Hi).
  - exact (ids_issued_same _ _ Hl1 Hl2 Hi).
  - destruct (toggleFeaturedStatus_effect id w)
      as [Hn [Hdb|(d & Hf & _ & Hdb)]].
    + exact (ids_issued_same _ _ Hdb Hn Hi).
    + exact (ids_issued_replace _ _ id d (toggled_at (now w) d)
               Hf eq_refl Hdb Hn Hi).
Qed.

(* ================================================================== *)
(** ** Successful mutations and what follows them *)

Lemma createProduct_stores {V : ValidationModule} fd input w :
  quiet w ->
  validateProduct (createRawData fd) = ParseOk input ->
  ProductSchema.document_errors (in_name input) (in_description input)
    (in_price input) (in_stock input) (in_category input)
    (in_images input) = [] ->
  exists w',
    createProduct fd w = (Ret (ok (DataProduct (Product.new_doc w input))), w') /\
    quiet w' /\
    db w' = (db w ++ [Product.new_doc w input])%list /\
    nextId w' = S (nextId w) /\
    added w w' [EvConnect; EvCreate input;
                EvRevalidatePath "/dashboard/products"].
Proof.
  intros Hq Hv Hs.
  unfold createProduct, try_catch, createProduct_try, bind, dbConnect.
  rewrite (call_quiet _ _ Hq), Hv.
  rewrite create_quiet by auto with world. cbn zeta.
  set (w1 := after_call _ (after_call _ w)).
  set (w2 := Build_World _ _ _ _ _ _).
  assert (Hq2 : quiet w2)
    by (apply (quiet_same_faults w1); [reflexivity | subst w1; auto with world]).
  unfold revalidatePath. rewrite (call_quiet _ _ Hq2). cbn.
  eexists. split; [reflexivity|]. split; [now apply quiet_after_call|].
  split; [reflexivity|]. split; [reflexivity|]. solve_added.
Qed.

(** X2.  A product that [createProduct] has stored is the one
    [getProductById] returns for the id of the response; that id was
    not in use before, and the creation invalidates the listing path
    only. *)
Theorem X2_created_product_is_found_by_its_id
    {V : ValidationModule} (fd : FormData) (input : ProductInput) (w : World) :
  quiet w ->
  ids_issued w ->
  validateProduct (createRawData fd) = ParseOk input ->
  ProductSchema.document_errors (in_name input) (in_description input)
    (in_price input) (in_stock input) (in_category input)
    (in_images input) = [] ->
  exists d w1 w2,
    createProduct fd w = (Ret (ok (DataProduct d)), w1) /\
    find (Product.by_id (p_id d)) (db w) = None /\
    getProductById (p_id d) w1 = (Ret (ok (DataProduct d)), w2) /\
    List.length (db w1) = S (List.length (db w)) /\
    revalidated (skipn (List.length (log w)) (log w1))
    = [EvRevalidatePath "/dashboard/products"].
Proof.
  intros Hq Hi Hv Hs.
  destruct (createProduct_stores fd input w Hq Hv Hs)
    as (w1 & Hrun & Hq1 & Hdb & _ & Hadd).
  pose proof (ids_issued_fresh w Hi) as Hfresh.
  destruct (getProductById_quiet (Product.fresh_id (nextId w)) w1 Hq1
              (casts_fresh _ _))
    as (w2 & Hget & _).
  rewrite Hdb,
    (find_app_fresh _ _ (Product.new_doc w input) Hfresh eq_refl) in Hget.
  exists (Product.new_doc w input), w1, w2.
  split; [exact Hrun|]. split; [exact Hfresh|]. split; [exact Hget|].
  split; [rewrite Hdb, length_app; cbn; lia|].
  unfold added in Hadd. rewrite Hadd, skipn_app, skipn_all, Nat.sub_diag.
  reflexivity.
Qed.

Lemma deleteProduct_removes id d w :
  find (Product.by_id id) (db w) = Some d ->
  quiet w ->
  exists w',
    deleteProduct id w
    = (Ret (ok (DataMessage "Product deleted successfully")), w') /\
    quiet w' /\
    db w' = Product.remove_first id (db w) /\
    nextId w' = nextId w.
Proof.
  intros Hf Hq.
  unfold deleteProduct, deleteProduct_try, try_catch, bind, dbConnect.
  rewrite (call_quiet _ _ Hq).
  unfold Product.findByIdAndDelete, bind.
  rewrite call_quiet by auto with world.
  rewrite !db_after_call, (casts_found _ _ _ Hf), Hf. unfold revalidatePath.
  rewrite call_quiet by auto with world. cbn.
  eexists. split; [reflexivity|]. split; [auto 6 with world|].
  split; reflexivity.
Qed.

(** X3.  After a successful [deleteProduct] the collection has one
    document less, the documents of the other ids are as before, the id
    is no longer found by [getProductById], and a second
    [deleteProduct] of the same id answers ['Product not found']. *)
Theorem X3_deleted_product_is_gone (id : string) (d : ProductDoc) (w : World) :
  quiet w ->
  ids_issued w ->
  find (Product.by_id id) (db w) = Some d ->
  exists w1 w2 w3,
    deleteProduct id w
    = (Ret (ok (DataMessage "Product deleted successfully")), w1) /\
    S (List.length (db w1)) = List.length (db w) /\
    others id (db w1) = others id (db w) /\
    getProductById id w1 = (Ret (failure "Product not found"), w2) /\
    deleteProduct id w2 = (Ret (failure "Product not found"), w3) /\
    db w3 = db w1.
Proof.
  intros Hq [Hnd Hb] Hf.
  assert (Hc : forall coll, Product.casts coll id = true).
  { intros coll. pose proof (find_by_id_id _ _ _ Hf) as Hid.
    apply find_some in Hf as [Hin _].
    destruct (Hb d Hin) as (k & _ & Hk).
    rewrite <- Hid, Hk. apply casts_fresh. }
  destruct (deleteProduct_removes id d w Hf Hq) as (w1 & Hrun & Hq1 & Hdb & _).
  assert (Hgone : find (Product.by_id id) (db w1) = None)
    by (rewrite Hdb; now apply remove_first_gone).
  destruct (getProductById_quiet id w1 Hq1 (Hc _))
    as (w2 & Hget & Hq2 & Hdb2 & _).
  rewrite Hgone in Hget.
  assert (Hgone2 : find (Product.by_id id) (db w2) = None) by now rewrite Hdb2.
  destruct (deleteProduct_missing id w2 Hgone2)
    as (r & w3 & evs & Hrun3 & _ & Hdb3 & _ & _ & Hr & _).
  destruct (Hr Hq2 (Hc _)) as [-> _].
  exists w1, w2, w3.
  split; [exact Hrun|].
  split; [rewrite Hdb; now apply (remove_first_length id _ d)|].
  split; [rewrite Hdb; apply remove_first_others|].
  split; [exact Hget|]. split; [exact Hrun3|]. congruence.
Qed.




(* ================================================================== *)
(** ** What an update and a toggle never change *)



(* ================================================================== *)
(** ** A failing invalidation after a successful write *)

(** X8.  When the connection and the store call succeed and the
    following [revalidatePath] fails, [createProduct] answers a failure
    although the product has been stored, and [deleteProduct] answers a
    failure although the product has been removed: the write is not
    undone. *)
Theorem X8_failed_invalidation_keeps_the_write
    {V : ValidationModule} (fd : FormData) (id : string) (e : Exn) (w : World) :
  hd None (faults w) = None ->
  hd None (tl (faults w)) = None ->
  hd None (tl (tl (faults w))) = Some e ->
  (forall input,
      validateProduct (createRawData fd) = ParseOk input ->
      ProductSchema.document_errors (in_name input) (in_description input)
        (in_price input) (in_stock input) (in_category input)
        (in_images input) = [] ->
      exists r w',
        createProduct fd w = (Ret r, w') /\
        success r = false /\
        db w' = (db w ++ [Product.new_doc w input])%list)
  /\
  (forall d,
      find (Product.by_id id) (db w) = Some d ->
      exists w',
        deleteProduct id w
        = (Ret (failure
                  (message_or e "Failed to delete product. Please try again.")),
           w') /\
        db w' = Product.remove_first id (db w)).
Proof.
  intros H1 H2 H3. split.
  - intros input Hv Hs.
    unfold createProduct, createProduct_try, createProduct_catch, try_catch,
      bind, dbConnect, revalidatePath, Product.create, call, console_error,
      bind, ret, throw.
    rewrite H1, Hv. cbn [faults after_call with_faults with_log db].
    rewrite H2, Hs. cbn beta iota. rewrite no_unique_index.
    cbn [faults after_call with_faults with_log db]. rewrite H3.
    destruct (is_duplicate_key e); eexists _, _; repeat split.
  - intros d Hf.
    unfold deleteProduct, deleteProduct_try, deleteProduct_catch, try_catch,
      bind, dbConnect, revalidatePath, Product.findByIdAndDelete, call,
      console_error, bind, ret.
    rewrite H1. cbn [faults after_call with_faults with_log db].
    rewrite H2. cbn [faults after_call with_faults with_log with_db db].
    rewrite (casts_found _ _ _ Hf), Hf.
    cbn [faults after_call with_faults with_log with_db db].
    rewrite H3. eexists. split; reflexivity.
Qed.

(* ================================================================== *)
(** ** The response envelope *)

Lemma message_or_nonempty e fallback :
  fallback <> "" -> message_or e fallback <> "".
Proof.
  intros Hf. unfold message_or.
  destruct (e_message e) as [m|]; [|exact Hf].
  destruct (String.eqb m "") eqn:E; [exact Hf|].
  now apply String.eqb_neq.
Qed.

Ltac envelope :=
  unfold well_formed; cbn -[message_or];
  repeat match goal with
         | |- _ /\ _ => split
         | |- _ <> _ => first [discriminate | apply message_or_nonempty; discriminate]
         | |- _ = _ => reflexivity
         | |- exists _, _ => eexists
         | |- _ -> _ => let H := fresh in intros H; try congruence
         end.

(** X9.  Every response of every action has one of the two shapes of the
    envelope, whatever the input and whatever fails: a success with data
    and no error, or a failure with a non-empty error text and no data;
    field errors come only with ['Validation failed']. *)
Theorem X9_responses_are_well_formed
    {V : ValidationModule} (fd : FormData) (id : string)
    (params : option ListParams) (w : World) :
  (exists r w', createProduct fd w = (Ret r, w') /\ well_formed r) /\
  (exists r w', updateProduct id fd w = (Ret r, w') /\ well_formed r) /\
  (exists r w', deleteProduct id w = (Ret r, w') /\ well_formed r) /\
  (exists r w', getProductById id w = (Ret r, w') /\ well_formed r) /\
  (exists r w', getAllProducts params w = (Ret r, w') /\ well_formed r) /\
  (exists r w', toggleFeaturedStatus id w = (Ret r, w') /\ well_formed r).
Proof.
  unfold_actions.
  refine (conj _ (conj _ (conj _ (conj _ (conj _ _)))));
    run_cases; eexists _, _; (split; [reflexivity|]); envelope.
Qed.

(* ================================================================== *)
(** ** Trimming *)

Section Trim.

Import JsString.

Lemma trim_start_length l : (List.length (trim_start l) <= List.length l)%nat.
Proof.
  induction l as [|c r IH]; cbn; [lia|].
  destruct (is_ws c); cbn; lia.
Qed.

Lemma trim_start_idem l : trim_start (trim_start l) = trim_start l.
Proof.
  induction l as [|c r IH]; cbn; [reflexivity|].
  destruct (is_ws c) eqn:E; [exact IH|]. cbn. now rewrite E.
Qed.

Lemma trim_start_suffix l : exists p, l = (p ++ trim_start l)%list.
Proof.
  induction l as [|c r [p IH]]; cbn; [now exists []|].
  destruct (is_ws c).
  - exists (c :: p). cbn. now rewrite <- IH.
  - now exists [].
Qed.

Lemma trim_start_fixed c r : trim_start (c :: r) = c :: r -> is_ws c = false.
Proof.
  cbn. destruct (is_ws c); [|reflexivity].
  intros H. pose proof (trim_start_length r) as Hl.
  rewrite H in Hl. cbn in Hl. lia.
Qed.

Lemma trim_end_keeps_start m :
  trim_start m = m -> trim_start (trim_end m) = trim_end m.
Proof.
  intros Hm. unfold trim_end.
  destruct (trim_start_suffix (rev m)) as [p Hp].
  assert (Hsplit : m = (rev (trim_start (rev m)) ++ rev p)%list)
    by (rewrite <- rev_app_distr, <- Hp; now rewrite rev_involutive).
  destruct (rev (trim_start (rev m))) as [|c r]; [reflexivity|].
  rewrite Hsplit in Hm. apply trim_start_fixed in Hm.
  cbn. now rewrite Hm.
Qed.

Lemma trim_chars_idem l : trim_chars (trim_chars l) = trim_chars l.
Proof.
  unfold trim_chars.
  rewrite (trim_end_keeps_start (trim_start l)) by apply trim_start_idem.
  unfold trim_end. now rewrite rev_involutive, trim_start_idem.
Qed.

Lemma trim_idem s : trim (trim s) = trim s.
Proof.
  unfold trim, chars.
  now rewrite list_ascii_of_string_of_list_ascii, trim_chars_idem.
Qed.

End Trim.

(* ================================================================== *)
(** ** What the schema accepts *)

Section SchemaAcceptance.

Import ProductSchema.

Lemma first_failure_none checks :
  first_failure checks = None <-> Forall (fun c => fst c = true) checks.
Proof.
  induction checks as [|[[] msg] r IH]; cbn.
  - split; [constructor | reflexivity].
  - rewrite IH. split; [now constructor | now inversion 1].
  - split; [discriminate | inversion 1; discriminate].
Qed.

Lemma strlen_zero s : strlen s = 0 <-> s = "".
Proof. unfold strlen. destruct s; cbn; split; (discriminate || lia || reflexivity). Qed.

Lemma strlen_nonneg s : 0 <= strlen s.
Proof. unfold strlen. lia. Qed.

Lemma name_error_none v :
  name_error v = None <-> 3 <= strlen (JsString.trim v) <= 100.
Proof.
  unfold name_error. rewrite first_failure_none.
  repeat rewrite Forall_cons_iff. cbn [fst].
  rewrite negb_true_iff, String.eqb_neq, !Z.leb_le, <- strlen_zero.
  pose proof (strlen_nonneg (JsString.trim v)).
  split; [intros (_ & ? & ? & _); lia | intros ?; repeat split; (lia || constructor)].
Qed.

Lemma description_error_none v :
  description_error v = None <-> 1 <= strlen (JsString.trim v) <= 1000.
Proof.
  unfold description_error. rewrite first_failure_none.
  repeat rewrite Forall_cons_iff. cbn [fst].
  rewrite negb_true_iff, String.eqb_neq, !Z.leb_le, <- strlen_zero.
  pose proof (strlen_nonneg (JsString.trim v)).
  split; [intros (? & ? & _); lia | intros ?; repeat split; (lia || constructor)].
Qed.

Lemma price_error_none v : price_error v = None <-> JsNumber.ge0 v = true.
Proof.
  unfold price_error. rewrite first_failure_none.
  repeat rewrite Forall_cons_iff. cbn [fst].
  split; [tauto|]. intros H. repeat split; try assumption; [|constructor].
  destruct v; [discriminate | reflexivity ..].
Qed.

Lemma stock_error_none v :
  stock_error v = None
  <-> JsNumber.ge0 v = true /\ JsNumber.isInteger v = true.
Proof.
  unfold stock_error. rewrite first_failure_none.
  repeat rewrite Forall_cons_iff. cbn [fst].
  split; [tauto|]. intros [H1 H2]. repeat split; try assumption; [|constructor].
  destruct v; [discriminate | reflexivity ..].
Qed.

Lemma category_error_none v :
  category_error v = None <-> In (JsString.trim v) categories.
Proof.
  unfold category_error. rewrite first_failure_none.
  repeat rewrite Forall_cons_iff. cbn [fst].
  rewrite negb_true_iff, String.eqb_neq, existsb_exists.
  split.
  - intros (_ & (x & Hx & E) & _). apply String.eqb_eq in E. now subst.
  - intros H. repeat split; [| |constructor].
    + intros E. rewrite E in H. cbn in H. intuition discriminate.
    + exists (JsString.trim v). split; [exact H | apply String.eqb_refl].
Qed.

Lemma images_error_none v :
  images_error v = None <-> (List.length v <= 5)%nat.
Proof.
  unfold images_error. rewrite first_failure_none.
  repeat rewrite Forall_cons_iff. cbn [fst]. rewrite Z.leb_le.
  split; [intros [? _]; lia | intros ?; split; [lia | constructor]].
Qed.

Lemma on_path_nil {A} path (check : A -> option string) v :
  on_path path check v = [] <-> forall x, v = Some x -> check x = None.
Proof.
  unfold on_path. destruct v as [x|].
  - destruct (check x) eqn:E; split.
    + discriminate.
    + intros H. specialize (H x eq_refl). congruence.
    + now intros _ y [= <-].
    + reflexivity.
  - split; [discriminate | reflexivity].
Qed.

Lemma app_nil_iff {A} (l l' : list A) :
  (l ++ l')%list = [] <-> l = [] /\ l' = [].
Proof.
  split; [apply app_eq_nil | now intros [-> ->]].
Qed.

Lemma update_errors_nil u :
  update_errors u = [] <->
  (forall x, set_name u = Some x -> name_error x = None) /\
  (forall x, set_description u = Some x -> description_error x = None) /\
  (forall x, set_price u = Some x -> price_error x = None) /\
  (forall x, set_stock u = Some x -> stock_error x = None) /\
  (forall x, set_category u = Some x -> category_error x = None) /\
  (forall x, set_images u = Some x -> images_error x = None).
Proof.
  unfold update_errors.
  repeat rewrite app_nil_iff.
  now rewrite !on_path_nil.
Qed.

Lemma document_errors_nil n d p s c i :
  document_errors n d p s c i = [] <->
  name_error n = None /\ description_error d = None /\
  price_error p = None /\ stock_error s = None /\
  category_error c = None /\ images_error i = None.
Proof.
  unfold document_errors. rewrite update_errors_nil. cbn.
  split.
  - intros (H1 & H2 & H3 & H4 & H5 & H6). repeat split; auto.
  - intros (H1 & H2 & H3 & H4 & H5 & H6).
    repeat split; intros x [= <-]; assumption.
Qed.

(** X12.  The schema accepts a document exactly when its trimmed name
    has 3 to 100 characters, its trimmed description 1 to 1000, its
    price is a number that is not negative, its stock a whole number
    that is not negative, its trimmed category one of the eight listed,
    and it has at most 5 images. *)
Theorem X12_schema_accepts_exactly
    (n d : string) (p s : JSNumber) (c : string) (i : list string) :
  document_errors n d p s c i = [] <-> schema_accepts n d p s c i.
Proof.
  rewrite document_errors_nil. unfold schema_accepts.
  rewrite name_error_none, description_error_none, price_error_none,
    stock_error_none, category_error_none, images_error_none.
  tauto.
Qed.

Lemma name_error_trim v : name_error (JsString.trim v) = name_error v.
Proof. unfold name_error. now rewrite trim_idem. Qed.

Lemma description_error_trim v :
  description_error (JsString.trim v) = description_error v.
Proof. unfold description_error. now rewrite trim_idem. Qed.

Lemma category_error_trim v :
  category_error (JsString.trim v) = category_error v.
Proof. unfold category_error. now rewrite trim_idem. Qed.

Lemma new_doc_valid w input :
  document_errors (in_name input) (in_description input) (in_price input)
    (in_stock input) (in_category input) (in_images input) = [] ->
  schema_valid (Product.new_doc w input).
Proof.
  unfold schema_valid. rewrite !document_errors_nil.
  cbn [Product.new_doc p_name p_description p_price p_stock p_category
       p_images].
  now rewrite name_error_trim, description_error_trim, category_error_trim.
Qed.

Lemma apply_update_valid t u d :
  update_errors u = [] -> schema_valid d ->
  schema_valid (Product.apply_update t u d).
Proof.
  unfold schema_valid. rewrite update_errors_nil, !document_errors_nil.
  cbn [Product.apply_update p_name p_description p_price p_stock p_category
       p_images].
  intros (U1 & U2 & U3 & U4 & U5 & U6) (D1 & D2 & D3 & D4 & D5 & D6).
  repeat split.
  - destruct (set_name u); cbn [option_map Product.or_else];
      [rewrite name_error_trim|]; auto.
  - destruct (set_description u); cbn [option_map Product.or_else];
      [rewrite description_error_trim|]; auto.
  - destruct (set_price u); cbn [Product.or_else]; auto.
  - destruct (set_stock u); cbn [Product.or_else]; auto.
  - destruct (set_category u); cbn [option_map Product.or_else];
      [rewrite category_error_trim|]; auto.
  - destruct (set_images u); cbn [Product.or_else]; auto.
Qed.

End SchemaAcceptance.

Lemma remove_first_Forall (P : ProductDoc -> Prop) id l :
  Forall P l -> Forall P (Product.remove_first id l).
Proof.
  rewrite !Forall_forall. intros H x Hx. apply H.
  eapply remove_first_in; eassumption.
Qed.

(** X5.  Every action, whatever its input, whatever the validator lets
    through and whatever fails, leaves a collection of schema-valid
    documents schema-valid. *)
Theorem X5_actions_keep_documents_valid
    {V : ValidationModule} (fd : FormData) (id : string)
    (params : option ListParams) (w : World) :
  all_valid w ->
  all_valid (snd (createProduct fd w)) /\
  all_valid (snd (updateProduct id fd w)) /\
  all_valid (snd (deleteProduct id w)) /\
  all_valid (snd (getProductById id w)) /\
  all_valid (snd (getAllProducts params w)) /\
  all_valid (snd (toggleFeaturedStatus id w)).
Proof.
  unfold all_valid. intros Hv.
  destruct (readers_effect id params w) as (Hg1 & _ & Hl1 & _).
  refine (conj _ (conj _ (conj _ (conj _ (conj _ _))))).
  - destruct (createProduct_effect fd w)
      as [[Hdb _]|(input & _ & Hs & Hdb & _)]; rewrite Hdb; [exact Hv|].
    apply Forall_app. split; [exact Hv|].
    constructor; [now apply new_doc_valid | constructor].
  - destruct (updateProduct_effect id fd w)
      as [_ [Hdb|(u & d & _ & Hs & Hf & Hdb)]]; rewrite Hdb; [exact Hv|].
    apply replace_first_Forall; [exact Hv|].
    apply apply_update_valid; [exact Hs|].
    apply find_some in Hf as [Hin _].
    rewrite Forall_forall in Hv. now apply Hv.
  - destruct (deleteProduct_effect id w) as [_ [Hdb|(d & _ & Hdb)]];
      rewrite Hdb; [exact Hv|]. now apply remove_first_Forall.
  - now rewrite Hg1.
  - now rewrite Hl1.
  - destruct (toggleFeaturedStatus_effect id w)
      as [_ [Hdb|(d & Hf & Hs & Hdb)]]; rewrite Hdb; [exact Hv|].
    apply replace_first_Forall; [exact Hv|]. exact Hs.
Qed.

(* ================================================================== *)
(** ** Walking the pages *)












(** Without distinct creation times the pages need not tile the
    listing: of two products created at the same time, a store that
    orders them one way for the first page and the other way for the
    second lists one of them on both pages and the other on none. *)
Example pages_of_equal_times_can_repeat :
  quiet Sample2.world_twins /\
  walk_pages Sample2.one_per_page 1 2 Sample2.world_twins
  = [Sample2.twin_a; Sample2.twin_a].
Proof. split; [constructor | vm_compute; reflexivity]. Qed.

(* ================================================================== *)
(** ** A toggle seen from outside *)

(** X11.  A successful [toggleFeaturedStatus] invalidates the listing
    path and the path of the product, in this order, stamps the update
    time with the time of the write and changes no other field but
    [featured]; [getProductById] then returns the toggled document. *)
Theorem X11_toggle_is_visible_and_invalidates
    (id : string) (d : ProductDoc) (w : World) :
  quiet w ->
  find (Product.by_id id) (db w) = Some d ->
  schema_valid d ->
  exists d' w1 w2,
    toggleFeaturedStatus id w = (Ret (ok (DataProduct d')), w1) /\
    untoggled d' = untoggled d /\
    p_featured d' = negb (p_featured d) /\
    p_updatedAt d' = now w /\
    revalidated (skipn (List.length (log w)) (log w1))
    = [EvRevalidatePath "/dashboard/products";
       EvRevalidatePath ("/dashboard/products/" ++ id)] /\
    getProductById id w1 = (Ret (ok (DataProduct d')), w2).
Proof.
  intros Hq Hf Hv.
  destruct (toggleFeaturedStatus_found id d w Hf Hv Hq)
    as (w1 & Hrun & Hq1 & _ & Hf1 & Hrev).
  destruct (getProductById_quiet id w1 Hq1 (casts_found _ _ _ Hf1))
    as (w2 & Hget & _).
  rewrite Hf1 in Hget.
  exists (toggled_at (now w) d), w1, w2.
  repeat split; assumption.
Qed.

(* ================================================================== *)
(** ** The two coercions of the form *)

(** X14.  [updateProduct] reads a supplied field exactly as
    [createProduct] does; for a field the form does not carry,
    [createProduct] still passes a value to validation (price [0],
    stock [0], featured [false], no images) where [updateProduct]
    passes no field at all. *)
Theorem X14_update_coerces_like_create (fd : FormData) :
  let c := createRawData fd in
  let u := updateRawData fd in
  upd_name u = raw_name c /\
  upd_description u = raw_description c /\
  upd_category u = raw_category c /\
  (Form.has fd "price" = true -> upd_price u = Some (raw_price c)) /\
  (Form.has fd "stock" = true -> upd_stock u = Some (raw_stock c)) /\
  (Form.has fd "featured" = true -> upd_featured u = Some (raw_featured c)) /\
  (raw_images c <> [] -> upd_images u = Some (raw_images c)) /\
  (Form.has fd "price" = false ->
   upd_price u = None /\ raw_price c = JFin 0%Q) /\
  (Form.has fd "stock" = false ->
   upd_stock u = None /\ raw_stock c = JFin 0%Q) /\
  (Form.has fd "featured" = false ->
   upd_featured u = None /\ raw_featured c = false) /\
  (raw_images c = [] -> upd_images u = None).
Proof.
  cbn zeta. unfold updateRawData, createRawData.
  cbn [upd_name upd_description upd_category upd_price upd_stock
       upd_featured upd_images raw_name raw_description raw_category
       raw_price raw_stock raw_featured raw_images].
  assert (Hget : forall k,
    (if Form.has fd k then Form.get fd k else None) = Form.get fd k).
  { intros k. destruct (Form.has fd k) eqn:E; [reflexivity|].
    symmetry. now apply has_false_get. }
  rewrite !Hget.
  refine (conj eq_refl (conj eq_refl (conj eq_refl
            (conj _ (conj _ (conj _ (conj _ (conj _ (conj _ (conj _ _)))))))))).
  - now intros ->.
  - now intros ->.
  - now intros ->.
  - destruct (filter Form.not_empty (Form.getAll fd "images"));
      [congruence | reflexivity].
  - intros H. rewrite H, (has_false_get _ _ H). now split.
  - intros H. rewrite H, (has_false_get _ _ H). now split.
  - intros H. unfold Form.featured_flag.
    rewrite H, (has_false_get _ _ H). now split.
  - now intros ->.
Qed.

(* ================================================================== *)
(** ** The [toJSON] transform *)

Section ToJSONFacts.

Context {Value : Type}.
Variable of_string : string -> Value.
Variable toString : Value -> string.

Lemma lookup_assign_same k (v : Value) o :
  ToJSON.lookup k (ToJSON.assign k v o) = Some v.
Proof.
  induction o as [|[k' v'] o IH]; cbn.
  - now rewrite String.eqb_refl.
  - destruct (String.eqb k' k) eqn:E; cbn.
    + now rewrite String.eqb_refl.
    + now rewrite E.
Qed.

Lemma lookup_assign_other k k0 (v : Value) o :
  k0 <> k -> ToJSON.lookup k0 (ToJSON.assign k v o) = ToJSON.lookup k0 o.
Proof.
  intros Hk. induction o as [|[k' v'] o IH]; cbn.
  - apply not_eq_sym, String.eqb_neq in Hk. now rewrite Hk.
  - destruct (String.eqb k' k) eqn:E; cbn.
    + apply String.eqb_eq in E. subst k'.
      apply not_eq_sym, String.eqb_neq in Hk. now rewrite Hk.
    + now rewrite IH.
Qed.

Lemma lookup_delete_same k (o : ToJSON.Obj (Value := Value)) :
  ToJSON.lookup k (ToJSON.delete k o) = None.
Proof.
  induction o as [|[k' v'] o IH]; cbn; [reflexivity|].
  destruct (String.eqb k' k) eqn:E; cbn; [exact IH|]. now rewrite E.
Qed.

Lemma lookup_delete_other k k0 (o : ToJSON.Obj (Value := Value)) :
  k0 <> k -> ToJSON.lookup k0 (ToJSON.delete k o) = ToJSON.lookup k0 o.
Proof.
  intros Hk. induction o as [|[k' v'] o IH]; cbn; [reflexivity|].
  destruct (String.eqb k' k) eqn:E; cbn.
  - apply String.eqb_eq in E. subst k'.
    apply not_eq_sym, String.eqb_neq in Hk. now rewrite Hk.
  - now rewrite IH.
Qed.

(** X13.  The [toJSON] transform of the schema gives an object whose
    [id] is the text of the document's [_id], that has neither [_id] nor
    [__v], and whose other keys are as in the document; on an object
    without [_id], and so on its own result, it throws. *)
Theorem X13_toJSON_exposes_id_and_hides_internals
    (ret : ToJSON.Obj (Value := Value)) :
  (ToJSON.lookup "_id" ret = None ->
   ToJSON.transform of_string toString ret = None)
  /\
  (forall v,
      ToJSON.lookup "_id" ret = Some v ->
      exists out,
        ToJSON.transform of_string toString ret = Some out /\
        ToJSON.lookup "id" out = Some (of_string (toString v)) /\
        ToJSON.lookup "_id" out = None /\
        ToJSON.lookup "__v" out = None /\
        (forall k, k <> "id" -> k <> "_id" -> k <> "__v" ->
           ToJSON.lookup k out = ToJSON.lookup k ret) /\
        ToJSON.transform of_string toString out = None).
Proof.
  unfold ToJSON.transform. split.
  - now intros ->.
  - intros v Hv. rewrite Hv. eexists. split; [reflexivity|].
    assert (Hno : ToJSON.lookup "_id"
      (ToJSON.delete "__v" (ToJSON.delete "_id"
         (ToJSON.assign "id" (of_string (toString v)) ret))) = None).
    { rewrite lookup_delete_other by discriminate.
      apply lookup_delete_same. }
    split; [|split; [exact Hno|split; [|split]]].
    + rewrite !lookup_delete_other by discriminate.
      apply lookup_assign_same.
    + apply lookup_delete_same.
    + intros k H1 H2 H3.
      now rewrite !lookup_delete_other, lookup_assign_other by assumption.
    + now rewrite Hno.
Qed.

End ToJSONFacts.

(* ================================================================== *)
(** ** Failures of the store and of the connection *)

(** X15.  A payload that the validator lets through and the schema
    rejects is not written: [createProduct], and [updateProduct] on an
    existing product, answer a failure without field errors after the
    one store call, and no path is invalidated. *)
Theorem X15_schema_rejection_is_a_failure
    {V : ValidationModule} (fd : FormData) (id : string) (w : World) :
  quiet w ->
  (forall input,
      validateProduct (createRawData fd) = ParseOk input ->
      ProductSchema.document_errors (in_name input) (in_description input)
        (in_price input) (in_stock input) (in_category input)
        (in_images input) <> [] ->
      exists r w',
        createProduct fd w = (Ret r, w') /\
        success r = false /\ errors r = None /\
        db w' = db w /\
        added w w' [EvConnect; EvCreate input;
                    EvConsoleError "Error creating product:"])
  /\
  (forall u d,
      validateUpdateProduct (updateRawData fd) = ParseOk u ->
      ProductSchema.update_errors u <> [] ->
      find (Product.by_id id) (db w) = Some d ->
      exists r w',
        updateProduct id fd w = (Ret r, w') /\
        success r = false /\ errors r = None /\
        db w' = db w /\
        added w w' [EvConnect; EvFindByIdAndUpdate id u;
                    EvConsoleError "Error updating product:"]).
Proof.
  intros Hq. split.
  - intros input Hv Hs.
    unfold createProduct, createProduct_try, createProduct_catch, try_catch,
      bind, dbConnect, Product.create, bind, console_error, throw.
    rewrite (call_quiet _ _ Hq), Hv.
    rewrite call_quiet by auto with world.
    destruct (ProductSchema.document_errors _ _ _ _ _ _) as [|x errs];
      [congruence|].
    cbn. eexists _, _. split; [reflexivity|].
    repeat split. solve_added.
  - intros u d Hv Hs Hf.
    unfold updateProduct, updateProduct_try, updateProduct_catch, try_catch,
      bind, dbConnect, Product.findByIdAndUpdate, bind, console_error, throw.
    rewrite (call_quiet _ _ Hq), Hv.
    rewrite call_quiet by auto with world.
    rewrite !db_after_call, (casts_found _ _ _ Hf).
    destruct (ProductSchema.update_errors u) as [|x errs]; [congruence|].
    cbn. eexists _, _. split; [reflexivity|].
    repeat split. solve_added.
Qed.

(** X16.  When the connection fails, every action answers a failure
    whose text is the message of the failure, or the fallback text of
    the action when that message is empty or missing, and calls the
    store not at all; [createProduct] answers its duplicate-name text
    instead when the failure carries the code 11000. *)
Theorem X16_connection_failure_is_reported
    {V : ValidationModule} (fd : FormData) (id : string)
    (params : option ListParams) (e : Exn) (w : World) :
  hd None (faults w) = Some e ->
  let failed label fallback :=
    (Ret (failure (message_or e fallback)),
     with_log (EvConsoleError label) (after_call EvConnect w)) in
  createProduct fd w
  = (Ret (failure
            (if is_duplicate_key e
             then "A product with this name already exists"
             else message_or e "Failed to create product. Please try again.")),
     with_log (EvConsoleError "Error creating product:")
       (after_call EvConnect w)) /\
  updateProduct id fd w
  = failed "Error updating product:"
      "Failed to update product. Please try again." /\
  deleteProduct id w
  = failed "Error deleting product:"
      "Failed to delete product. Please try again." /\
  getProductById id w
  = failed "Error fetching product:"
      "Failed to fetch product. Please try again." /\
  getAllProducts params w
  = failed "Error fetching products:"
      "Failed to fetch products. Please try again." /\
  toggleFeaturedStatus id w
  = failed "Error toggling featured status:"
      "Failed to update product. Please try again.".
Proof.
  intros He. cbn zeta. unfold_actions. rewrite He.
  destruct (is_duplicate_key e); repeat split.
Qed.

(* ================================================================== *)
(** ** The further properties on sample data *)

Lemma ids_issued_world1 : ids_issued Sample.world1.
Proof.
  split.
  - repeat constructor. cbn. tauto.
  - intros d [<-|[]]. exists 0%nat. split; [cbn; lia | reflexivity].
Defined.

Lemma all_valid_world1 : all_valid Sample.world1.
Proof. repeat constructor. Defined.

Lemma X2_witness :
  exists d w1 w2,
    createProduct (V := SpecValidation.module)
      (Sample.form "Wireless Mouse" "12.50") Sample.world1
    = (Ret (ok (DataProduct d)), w1) /\
    p_id d = "000000000000000000000001" /\
    getProductById "000000000000000000000001" w1 = (Ret (ok (DataProduct d)), w2).
Proof.
  destruct (X2_created_product_is_found_by_its_id
              (V := SpecValidation.module)
              (Sample.form "Wireless Mouse" "12.50") Sample.valid_input
              Sample.world1 quiet_world1 ids_issued_world1)
    as (d & w1 & w2 & Hrun & _ & Hget & _).
  - vm_compute. reflexivity.
  - vm_compute. reflexivity.
  - assert (Hid : p_id d = "000000000000000000000001")
      by (vm_compute in Hrun; now injection Hrun as <- _).
    rewrite Hid in Hget. now exists d, w1, w2.
Defined.

Lemma X3_witness :
  exists w1 w2,
    deleteProduct Sample.mouse_id Sample.world1
    = (Ret (ok (DataMessage "Product deleted successfully")), w1) /\
    getProductById Sample.mouse_id w1 = (Ret (failure "Product not found"), w2).
Proof.
  destruct (X3_deleted_product_is_gone Sample.mouse_id Sample.mouse Sample.world1
              quiet_world1 ids_issued_world1 eq_refl)
    as (w1 & w2 & w3 & Hrun & _ & _ & Hget & _).
  now exists w1, w2.
Defined.

Lemma X4_witness :
  ids_issued
    (snd (createProduct (V := SpecValidation.module)
            (Sample.form "Wireless Mouse" "12.50") Sample.world1)).
Proof.
  apply (X4_actions_keep_ids_distinct (V := SpecValidation.module)
           (Sample.form "Wireless Mouse" "12.50") Sample.mouse_id None Sample.world1
           ids_issued_world1).
Defined.

Lemma X5_witness :
  all_valid
    (snd (updateProduct (V := Sample2.lenient) Sample.mouse_id
            Sample2.negative_price_form Sample.world1)).
Proof.
  apply (X5_actions_keep_documents_valid (V := Sample2.lenient)
           Sample2.negative_price_form Sample.mouse_id None Sample.world1
           all_valid_world1).
Defined.


Lemma X8_witness :
  exists r w',
    createProduct (V := SpecValidation.module)
      (Sample.form "Wireless Mouse" "12.50") Sample2.world_cache_down
    = (Ret r, w') /\
    success r = false /\ List.length (db w') = 2%nat.
Proof.
  destruct (X8_failed_invalidation_keeps_the_write
              (V := SpecValidation.module)
              (Sample.form "Wireless Mouse" "12.50") Sample.mouse_id
              (Error "cache unavailable") Sample2.world_cache_down
              eq_refl eq_refl eq_refl)
    as [Hcreate _].
  destruct (Hcreate Sample.valid_input) as (r & w' & Hrun & Hs & Hdb).
  - vm_compute. reflexivity.
  - vm_compute. reflexivity.
  - exists r, w'. rewrite Hdb. repeat split; assumption.
Defined.


Lemma X11_witness :
  exists d' w1 w2,
    toggleFeaturedStatus Sample.mouse_id Sample.world1 = (Ret (ok (DataProduct d')), w1) /\
    p_featured d' = true /\
    getProductById Sample.mouse_id w1 = (Ret (ok (DataProduct d')), w2).
Proof.
  destruct (X11_toggle_is_visible_and_invalidates Sample.mouse_id Sample.mouse
              Sample.world1 quiet_world1 eq_refl eq_refl)
    as (d' & w1 & w2 & Hrun & _ & Hf & _ & _ & Hget).
  exists d', w1, w2. repeat split; assumption.
Defined.

Lemma X15_witness :
  exists r w',
    createProduct (V := Sample2.lenient) Sample2.negative_price_form
      Sample.world1
    = (Ret r, w') /\
    success r = false /\ db w' = db Sample.world1.
Proof.
  destruct (X15_schema_rejection_is_a_failure (V := Sample2.lenient)
              Sample2.negative_price_form Sample.mouse_id Sample.world1 quiet_world1)
    as [Hcreate _].
  destruct (Hcreate Sample2.negative_price_input)
    as (r & w' & Hrun & Hs & _ & Hdb & _).
  - vm_compute. reflexivity.
  - vm_compute. discriminate.
  - now exists r, w'.
Defined.

(** The text of a schema rejection names every failing path, the first
    one included. *)
Example schema_rejection_names_every_path :
  fst (createProduct (V := Sample2.lenient) Sample2.negative_price_form
         Sample.world1)
  = Ret (failure
           ("Product validation failed: name: Product name is required, "
            ++ "description: Product description is required, "
            ++ "price: Price cannot be negative, "
            ++ "category: Product category is required")) /\
  fst (updateProduct (V := Sample2.lenient) Sample.mouse_id
         Sample2.negative_price_form Sample.world1)
  = Ret (failure "Validation failed: price: Price cannot be negative").
Proof. split; vm_compute; reflexivity. Qed.

Lemma X16_witness :
  fst (deleteProduct Sample.mouse_id Sample.world_down)
  = Ret (failure "connect ECONNREFUSED").
Proof.
  destruct (X16_connection_failure_is_reported (V := SpecValidation.module)
              [] Sample.mouse_id None (Error "connect ECONNREFUSED") Sample.world_down
              eq_refl)
    as (_ & _ & Hdel & _).
  now rewrite Hdel.
Defined.

Example toJSON_plain_doc :
  ToJSON.transform (fun s => s) (fun v => v) Sample2.plain_doc
  = Some [ ("name", "Wireless Mouse"); ("id", "65f0c0ffee") ].
Proof. reflexivity. Qed.
